(* ===== verification/_CoqProject ===== *)
-Q . S2P
Prelude.v
PyStr.v
FileSystem.v
Backbone.v
Image.v
DecodeImage.v
ProcessImage.v
TfData.v
Dataset.v
Evaluation.v
Demo.v
