(* ===== verification/Prelude.v ===== *)
(** * A verification development for the TSL image-classification harness

    The repository (enesalper/tsl) is three Python files on top of
    TensorFlow/Keras:
    - [src/models/backbone.py]: class [Backbone], which validates a
      backbone name, an input shape and a weights argument with [assert]
      statements, computes the trainable flag, and dispatches on the
      lower-cased name to one of three Keras application constructors
      ([import_backbone]).
    - [src/utils/dataset.py]: the free functions [decode_image],
      [process_image], [aug_fn], [aug_process] and class [Dataset], whose
      constructor seeds TensorFlow's global generator, lists the class
      directories, globs the image files, optionally shuffles them and
      builds two lazy [tf.data] pipelines (decode, then
      resize/augment/normalise).
    - [src/evaluation.py]: a script that builds a test-mode [Dataset],
      chains [cache().batch(128).prefetch(AUTOTUNE)] on it and loads a
      saved Keras model.

    How the parts interact: [evaluation.py] constructs [Dataset];
    [Dataset.__init__] calls [read_files] and [map_files]; the pipeline
    built by [map_files] calls [decode_image] and then [process_image] on
    each element when the dataset is iterated, and [process_image] calls
    [aug_process]/[aug_fn].  [Backbone] is independent of the rest.

    ** Files of the development, in dependency order

    - [Prelude] (this file): Python exceptions as the inductive [PyExc],
      the error monad [result] (stdpp's [MRet]/[MBind], so [x ← m; k]
      reads like straight-line Python that may raise), Python's
      [assert] ([py_assert], which only fires when [__debug__] holds),
      negative tensor indexing [t[-k]] ([tf_getitem_neg]), the hint
      database [tsl], the tactic [inv_result] that inverts a chain of
      binds that succeeded, and the rewrite database [len] of length
      lemmas with its tactic [len].
    - [PyStr]: [str.split] / [tf.strings.split] on a one-character
      separator ([str_split]), its inverse [str_join], ASCII [str.lower]
      ([py_lower]), [sorted] on strings ([py_sorted], a merge sort on
      the code-unit order, proved to be THE sorted permutation so it
      agrees with CPython's Timsort), and [fnmatch] for the patterns the
      code builds ([fnmatch]).
    - [FileSystem]: the directory tree the program reads, with
      [os.path.join], [tf.io.gfile.listdir], [tf.io.gfile.glob] and
      [tf.io.read_file]; the well-formedness invariant of a tree
      ([wf_node]: entry names are distinct, non-empty and contain no
      separator).
    - [Backbone]: the Python object of [backbone.py] as a record, the
      Keras application constructors behind the class [KerasApps], and
      [Backbone___init__] / [import_backbone] translated line by line.
    - [Image]: an image as a list of rows of pixels of channel values
      ([Z] for decoded [uint8] tensors, [Q] for [float32] tensors); the
      library calls [tf.image.decode_png]/[decode_jpeg] (class
      [ImageCodecs]), [tf.image.resize] (class [Resize]) and the external
      [train_transforms] (class [Augment]), each with the laws the
      theorems use ([ImageCodecsLaws], [ResizeLaws]) and a reference
      instance (a grey-scale codec, nearest-neighbour resizing, the
      identity augmentation) that discharges them and runs the witnesses.
    - [DecodeImage]: [decode_image] (dataset.py 11-26): [read_file], the
      label [split(path, "/")[-2]], the codec from [split(path, ".")[-1]]
      with the PNG fallback ([decode_by_ext]) and the one-hot vector
      [tf.cast(label == labels)] ([encode_label]).
    - [ProcessImage]: [process_image], [aug_fn], [aug_process]
      (dataset.py 29-45).
    - [TfData]: the [tf.data] operations as functions of the file system
      at iteration time to the sequence of values and exceptions
      ([dataset]): [from_tensor_slices], [map] (in order), [batch] (the
      loop [batch_go], shown to refine the slicing [chunks], which is
      defined with Equations by well-founded recursion), [cache] (with its
      store), [prefetch], and a Python [for] loop ([iterate]).
    - [Dataset]: class [Dataset] (dataset.py 48-87).  TensorFlow's
      global random state (the global seed and the number of random
      operations since [tf.random.set_seed]) is the state of the
      [pystate] monad, so [Dataset___init__] is a state transformer:
      [set_seed] when [random_seed > 0], [listdir], [sorted], [read_files]
      (glob, then [tf.random.shuffle], class [TfShuffle], or
      [tf.convert_to_tensor], whose result for an empty list is a
      [float32] tensor) and [map_files] (the two pipelines).
    - [Evaluation]: the script [evaluation.py] as one state transformer
      [evaluation]: the test [Dataset], [cache().batch(128).prefetch()]
      and [tf.keras.models.load_model] (class [LoadModel]).
    - [Demo]: the [__main__] blocks: [backbone_main] (backbone.py 59-62)
      and [dataset_main] (dataset.py 90-99: two [Dataset]s built in
      sequence, then a loop over [take(10)] printing [np.min] and
      [np.max], modelled as the printed values and the exception that
      ends the program, [main_loop]).

    ** What the theorems show (groups)

    - strings (helper lemmas): split distributes over a separator, a
      join of separator-free pieces splits back into them, [py_sorted]
      is sorted, a permutation, and the only sorted permutation (so it
      agrees with CPython's Timsort), and [fnmatch "*" ++ lit] is a
      suffix test;
    - file system: the paths [glob] returns for [root/**/*.ext] are
      exactly [root/<entry>/<file>.ext] with [<entry>] a directory of the
      root: one level, not recursive;
    - backbone: the constructor's behaviour on every branch (valid
      arguments, each failing assert, [python -O]), the trainable
      invariant, and the unreachability of the [None] branch of
      [import_backbone] after validation;
    - decoding: the one-hot label of every listed file, the zero vector
      for a label outside the list, the PNG fallback;
    - processing: pixel values in [[0, 1]] (evaluation mode; training mode
      when the augmentation keeps [[0, 255]]), the target shape;
    - [tf.data]: batching refines [chunks], loses nothing without
      exceptions, and loses the partial batch at an exception;
    - [Dataset]: one-hot labels of the decode pipeline, the files read
      are the globbed ones (a permutation; the glob order without seed),
      determinism for a positive seed whatever the global state before,
      the labels include plain files, the errors at construction
      (missing root after the seed is set; no file gives [TypeError]),
      independence of evaluation-mode datasets from the augmentation;
    - [Dataset] element type: in evaluation mode every element is an
      image of the target size with 3 channels and values in [[0, 1]],
      with a label vector as long as the label list; the global random
      state a construction leaves (the seed, one random operation);
    - evaluation: every batch of the test pipeline holds 1 to 128
      elements with pixel values in [[0, 1]]; the loop ends after at most
      [⌈N / 128⌉] batches (termination); when every file decodes it ends
      without an exception having delivered all [N] images (liveness);
    - demos: the [dataset.py] demo prints at most 20 values, all in
      [[0, 1]] when the augmentation keeps [[0, 255]]; the [backbone.py]
      demo holds a headless non-trainable [EfficientNetB0] or raises the
      Keras error.

    ** Modelling choices and their limits

    - Strings are Rocq [string]s (byte strings).  Python compares [str]
      by code point; UTF-8 byte order coincides with code-point order, so
      [py_sorted] on the UTF-8 encodings of names gives Python's order.
      [py_lower] lowers ASCII letters only (the names the code compares
      are ASCII).
    - The library calls (Keras constructors and [load_model], image
      codecs, resize, the external augmentation, TensorFlow's shuffle) are
      not code of this repository: each is a type class stating only what
      the code relies on, with a concrete instance so that the witnesses
      run.
    - Floating-point pixel values are rationals [Q]: the bound theorems
      hold for the real-number semantics of [float32] division.
    - A lazy dataset is a function of the file system at iteration time;
      parallel [map] is deterministic (TensorFlow's default), so
      [num_parallel_calls] does not change the sequence; [prefetch] does
      not change it either.  [cache()] is modelled with its store; the
      script iterates nothing, so the store is empty.
    - No fuel is used: every definition is structural, except [chunks],
      defined by well-founded recursion on the length of the list.
    - The codecs' law includes that a decoded image is not empty (PNG
      and JPEG images have a width and a height of at least 1).
    - The relative paths [../data/...] of the [dataset.py] demo are
      resolved in the tree seen from the working directory, whose POSIX
      entry [..] is an entry of that name.
    - [fnmatch] follows glibc with [FNM_PATHNAME]: ['*'], ['?'] and the
      escape ['\'] are modelled, and a component holding ['*'], ['?'],
      ['['] or ['\'] starts the wildcard part of a [glob] pattern, as in
      TensorFlow; a bracket expression ['[...]'] is matched as literal
      characters.  The theorems on [glob] assume a root and an extension
      without these characters.
    - Not modelled: the imports, the content of the Keras models and of
      the decoded pixels (beyond the codec and resize laws), the numeric
      effect of the [float32] conversion in [tf.numpy_function], and the
      formatting of [print] (the output is the list of printed values). *)

From Stdlib Require Export Ascii String.
From Stdlib Require Export Init.Byte.
From stdpp Require Export base list strings sorting.
From Stdlib Require Export Lia.

Declare Scope tsl_scope.
Delimit Scope tsl_scope with tsl.

(** ** Python exceptions *)

(** The exceptions the modelled code can raise, its own ([assert],
    indexing) and those of the library calls it makes. *)
Inductive PyExc : Type :=
| AssertionError
| IndexError
| NotFoundError (path : string)
| FailedPreconditionError (path : string)
| InvalidArgumentError (what : string)
| ValueError (what : string)
| TypeError (what : string).

#[export] Instance PyExc_eq_dec : EqDecision PyExc.
Proof. solve_decision. Defined.

(** ** The error monad: a Python call either returns or raises *)

Inductive result (A : Type) : Type :=
| Ok (a : A)
| Err (e : PyExc).
Arguments Ok {A} a.
Arguments Err {A} e.

#[export] Instance result_ret : MRet result := λ A a, Ok a.
#[export] Instance result_bind : MBind result :=
  λ A B f r, match r with Ok a => f a | Err e => Err e end.
#[export] Instance result_fmap : FMap result :=
  λ A B f r, match r with Ok a => Ok (f a) | Err e => Err e end.

#[export] Instance result_eq_dec {A} `{EqDecision A} : EqDecision (result A).
Proof. solve_decision. Defined.

#[export] Instance Ok_inj {A} : Inj eq eq (@Ok A).
Proof. by intros x y [= ->]. Qed.

(** [raise] inside a [result] computation. *)
Definition raise {A} (e : PyExc) : result A := Err e.

(** Turn a lookup that may miss into an exception. *)
Definition of_option {A} (e : PyExc) (o : option A) : result A :=
  match o with Some a => Ok a | None => Err e end.

(** Python's [assert c]: checked only when [__debug__] is true, that is
    when the interpreter does not run with [-O]. *)
Definition py_assert (debug : bool) (c : bool) : result unit :=
  if debug && negb c then Err AssertionError else Ok ().

(** [t[-k]] on a 1-D tensor for [k >= 1] (and [t[0]] for [k = 0]): the
    [strided_slice] kernel raises [InvalidArgumentError] when the tensor
    is too short. *)
Definition tf_getitem_neg {A} (xs : list A) (k : nat) : result A :=
  of_option (InvalidArgumentError "slice index out of bounds")
    (match k with 0 => xs !! 0 | S k' => reverse xs !! k' end).

(** The boolean test [is_ok]. *)
Definition is_ok {A} (r : result A) : bool :=
  match r with Ok _ => true | Err _ => false end.

(** ** Global state and exceptions

    Code that mutates global state (TensorFlow's random seed) and may
    raise: the state after the call is kept when it raises, as in
    Python. *)
Definition pystate (S A : Type) : Type := S → S * result A.

#[export] Instance pystate_ret {S} : MRet (pystate S) := λ A a s, (s, Ok a).
#[export] Instance pystate_bind {S} : MBind (pystate S) :=
  λ A B f m s, match m s with
               | (s', Ok a) => f a s'
               | (s', Err e) => (s', Err e)
               end.

(** A call that does not touch the global state. *)
Definition ps_lift {S A} (r : result A) : pystate S A := λ s, (s, r).

(** An assignment to the global state. *)
Definition ps_modify {S} (f : S → S) : pystate S unit := λ s, (f s, Ok ()).

(** ** Lemmas on the monad *)

Create HintDb tsl.
Create Rewrite HintDb tsl_rw.

Lemma bind_Ok {A B} (a : A) (f : A → result B) : (Ok a ≫= f) = f a.
Proof. reflexivity. Qed.

Lemma bind_Err {A B} (e : PyExc) (f : A → result B) : (Err e ≫= f) = Err e.
Proof. reflexivity. Qed.

Lemma bind_Ok_inv {A B} (m : result A) (f : A → result B) (b : B) :
  (m ≫= f) = Ok b → ∃ a, m = Ok a ∧ f a = Ok b.
Proof. destruct m; simpl; [eauto | discriminate]. Qed.

Lemma of_option_Ok {A} e (o : option A) a : of_option e o = Ok a ↔ o = Some a.
Proof. destruct o; simpl; split; congruence. Qed.

Lemma py_assert_true debug : py_assert debug true = Ok ().
Proof. by destruct debug. Qed.

Lemma py_assert_off c : py_assert false c = Ok ().
Proof. reflexivity. Qed.

Lemma py_assert_fail : py_assert true false = Err AssertionError.
Proof. reflexivity. Qed.

#[export] Hint Rewrite @bind_Ok @bind_Err py_assert_true py_assert_off py_assert_fail : tsl_rw.

(** Invert every successful bind, [of_option] and [py_assert] in the
    hypotheses. *)
Ltac inv_result :=
  repeat match goal with
  | H : (?m ≫= _) = Ok _ |- _ =>
      let a := fresh "a" in let Ha := fresh "Ha" in let H' := fresh "H" in
      destruct (bind_Ok_inv _ _ _ H) as (a & Ha & H'); clear H
  | H : of_option _ _ = Ok _ |- _ => apply of_option_Ok in H
  | H : Ok _ = Ok _ |- _ => injection H as H; try subst
  | H : Ok _ = Err _ |- _ => discriminate H
  | H : Err _ = Ok _ |- _ => discriminate H
  end.

Lemma pystate_bind_Ok {S A B} (m : pystate S A) (f : A → pystate S B) s s' b :
  (m ≫= f) s = (s', Ok b) → ∃ s1 a, m s = (s1, Ok a) ∧ f a s1 = (s', Ok b).
Proof. unfold mbind, pystate_bind. destruct (m s) as [s1 [a|e]]; [eauto|intros [=]]. Qed.

(** Invert a chain of [pystate] binds that returned a value. *)
Ltac inv_pystate :=
  repeat match goal with
  | H : (?m ≫= _) ?s = (_, Ok _) |- _ =>
      let s1 := fresh "s" in let a := fresh "a" in let Ha := fresh "Ha" in
      let H' := fresh "H" in
      destruct (pystate_bind_Ok _ _ _ _ _ H) as (s1 & a & Ha & H'); clear H
  | H : ps_lift _ _ = (_, Ok _) |- _ => injection H as <- H; try subst
  | H : mret _ _ = (_, _) |- _ => injection H as <- H; try subst
  end.

(** ** Negative indexing *)

Lemma tf_getitem_neg_last {A} (xs : list A) (a : A) :
  tf_getitem_neg (xs ++ [a]) 1 = Ok a.
Proof. unfold tf_getitem_neg. by rewrite reverse_snoc. Qed.

Lemma tf_getitem_neg_second_last {A} (xs : list A) (a b : A) :
  tf_getitem_neg (xs ++ [a; b]) 2 = Ok a.
Proof.
  unfold tf_getitem_neg. change (xs ++ [a; b]) with (xs ++ [a] ++ [b]).
  rewrite (app_assoc xs [a] [b]), reverse_snoc, reverse_snoc.
  reflexivity.
Qed.

#[export] Hint Rewrite @tf_getitem_neg_last @tf_getitem_neg_second_last : tsl_rw.

(** A list of results that are all values is a list of values. *)
Lemma results_all_Ok {A} (rs : list (result A)) :
  Forall (λ r, is_ok r = true) rs → ∃ xs, rs = Ok <$> xs ∧ length xs = length rs.
Proof.
  induction 1 as [|[a|e] rs Ha _ (xs & -> & Hl)]; [by exists []| |done].
  exists (a :: xs). split; [done|]. cbn [length]. by rewrite Hl.
Qed.

(** ** Lengths

    The length lemmas as a rewrite database, and [len], which rewrites
    with it and closes the arithmetic. *)

Create Rewrite HintDb len.
#[export] Hint Rewrite @length_app @length_take @length_drop @length_fmap
  @length_replicate @length_reverse @length_seq : len.

Ltac len := autorewrite with len in *; cbn [length] in *; lia.
