(* ===== verification/PyStr.v ===== *)
(** * Python and TensorFlow string operations used by the program

    [str_split] is [tf.strings.split(path, sep)] / [path.split(sep)] for
    the one-character separators of [decode_image] (["/"] and ["."]);
    [str_join] is the joining of path components inside
    [tf.io.gfile.glob] (the program does not call it); [py_lower] is [str.lower] (used by
    [Backbone.import_backbone]); [py_sorted] is [sorted] on a list of
    names (used by [Dataset.__init__]); [fnmatch] is the C library
    matcher that [tf.io.gfile.glob] applies to one path component, with
    the [FNM_PATHNAME] flag. *)

From S2P Require Import Prelude.

Module PyStr.

Local Open Scope string_scope.

(** ** Splitting and joining on one character *)

(** [s.split(sep)]: every occurrence separates, empty pieces are kept,
    and [''.split(sep) = ['']]. *)
Fixpoint str_split (sep : ascii) (s : string) : list string :=
  match s with
  | EmptyString => [""]
  | String c s' =>
      let parts := str_split sep s' in
      if decide (c = sep) then "" :: parts
      else match parts with
           | p :: ps => String c p :: ps
           | [] => [String c ""]
           end
  end.

(** [sep.join(parts)]. *)
Fixpoint str_join (sep : ascii) (ps : list string) : string :=
  match ps with
  | [] => ""
  | [p] => p
  | p :: ps' => p +:+ String sep (str_join sep ps')
  end.

(** [c in s] for one character. *)
Fixpoint str_has (c : ascii) (s : string) : bool :=
  match s with
  | EmptyString => false
  | String d s' => bool_decide (d = c) || str_has c s'
  end.

(** [s.endswith(suf)]. *)
Fixpoint str_endswith (suf s : string) : bool :=
  String.eqb s suf || match s with "" => false | String _ s' => str_endswith suf s' end.

(** ** [str.lower] on ASCII letters *)

Definition ascii_lower (c : ascii) : ascii :=
  let n := nat_of_ascii c in
  if (65 <=? n)%nat && (n <=? 90)%nat then ascii_of_nat (n + 32) else c.

Fixpoint py_lower (s : string) : string :=
  match s with
  | EmptyString => EmptyString
  | String c s' => String (ascii_lower c) (py_lower s')
  end.

(** ** [sorted] on names *)

(** Python orders [str] lexicographically by code point, which on the
    byte strings of the model is [String.le].  CPython sorts with Timsort;
    [py_sorted_unique] below shows that any sorting algorithm gives the
    same list, so a merge sort is a faithful model of [sorted]. *)
Definition py_sorted (l : list string) : list string := merge_sort String.le l.

(** ** [fnmatch(pattern, name, FNM_PATHNAME)] without bracket expressions *)

(** ['*'] matches any run of characters other than ['/'], ['?'] one such
    character, ['\'] escapes the next character (a trailing ['\']
    matches nothing, as in glibc), any other character matches itself.
    A ['['] is matched as itself: bracket expressions are not modelled. *)
Fixpoint fnmatch (p n : string) {struct p} : bool :=
  match p with
  | EmptyString => match n with EmptyString => true | _ => false end
  | String c p' =>
      if decide (c = "*"%char) then
        (fix star (n : string) : bool :=
           fnmatch p' n ||
           match n with
           | EmptyString => false
           | String d n' => bool_decide (d ≠ "/"%char) && star n'
           end) n
      else if decide (c = "?"%char) then
        match n with
        | EmptyString => false
        | String d n' => bool_decide (d ≠ "/"%char) && fnmatch p' n'
        end
      else if decide (c = "\"%char) then
        match p', n with
        | String e p'', String d n' => bool_decide (d = e) && fnmatch p'' n'
        | _, _ => false
        end
      else
        match n with
        | EmptyString => false
        | String d n' => bool_decide (d = c) && fnmatch p' n'
        end
  end.

(** A pattern without wildcard characters. *)
Definition no_wildcard (p : string) : bool :=
  negb (str_has "*" p) && negb (str_has "?" p) && negb (str_has "[" p) &&
  negb (str_has "\" p).

(** ** Lemmas *)

Lemma append_nil_l (s : string) : "" +:+ s = s.
Proof. reflexivity. Qed.

Lemma append_cons (c : ascii) (s t : string) : String c s +:+ t = String c (s +:+ t).
Proof. reflexivity. Qed.

Lemma append_nil_r (s : string) : s +:+ "" = s.
Proof. induction s as [|c s IH]; [done|]. by rewrite append_cons, IH. Qed.

Lemma append_assoc (s t u : string) : s +:+ (t +:+ u) = (s +:+ t) +:+ u.
Proof. induction s as [|c s IH]; [done|]. by rewrite !append_cons, IH. Qed.

#[export] Hint Rewrite append_nil_l append_nil_r append_cons : tsl_rw.

Lemma str_split_ne_nil sep s : str_split sep s ≠ [].
Proof.
  induction s as [|c s IH]; simpl; [done|].
  case_decide; [done|]. by destruct (str_split sep s).
Qed.

(** Splitting distributes over one occurrence of the separator. *)
Lemma str_split_app_sep sep a b :
  str_split sep (a +:+ String sep b) = (str_split sep a ++ str_split sep b)%list.
Proof.
  induction a as [|c a IH]; rewrite ?append_cons; simpl.
  - simpl. by rewrite decide_True.
  - rewrite IH. case_decide; [done|].
    destruct (str_split sep a) eqn:E; [by destruct (str_split_ne_nil sep a)|done].
Qed.

Lemma str_split_no_sep sep s : str_has sep s = false → str_split sep s = [s].
Proof.
  induction s as [|c s IH]; simpl; [done|].
  intros [Hc Hs]%orb_false_iff. rewrite IH by done.
  rewrite decide_False; [done|]. intros ->. by rewrite bool_decide_true in Hc.
Qed.

Lemma str_join_cons sep p ps :
  ps ≠ [] → str_join sep (p :: ps) = p +:+ String sep (str_join sep ps).
Proof. by destruct ps. Qed.

(** Splitting a join of separator-free pieces gives the pieces back. *)
Lemma str_split_join sep ps :
  ps ≠ [] → Forall (λ p, str_has sep p = false) ps →
  str_split sep (str_join sep ps) = ps.
Proof.
  induction ps as [|p ps IH]; [done|]. intros _ Hall.
  apply Forall_cons in Hall as [Hp Hps].
  destruct ps as [|q ps]; [by apply str_split_no_sep|].
  rewrite str_join_cons by done. rewrite str_split_app_sep, IH by done.
  by rewrite str_split_no_sep.
Qed.

Lemma py_sorted_Sorted l : Sorted String.le (py_sorted l).
Proof. apply Sorted_merge_sort. apply _. Qed.

Lemma py_sorted_perm l : py_sorted l ≡ₚ l.
Proof. apply merge_sort_Permutation. Qed.

Lemma py_sorted_elem l x : x ∈ py_sorted l ↔ x ∈ l.
Proof. by rewrite py_sorted_perm. Qed.

Lemma py_sorted_NoDup l : NoDup l → NoDup (py_sorted l).
Proof. by rewrite py_sorted_perm. Qed.

Lemma str_endswith_spec suf s : str_endswith suf s = true ↔ ∃ x, s = x +:+ suf.
Proof.
  induction s as [|c s IH]; cbn [str_endswith].
  - destruct suf as [|c suf]; simpl; split; try done.
    + intros _. by exists "".
    + by intros [[|d x] Hx].
  - rewrite orb_true_iff, IH, String.eqb_eq. split.
    + intros [->|[x ->]]; [by exists ""|]. by exists (String c x).
    + intros [[|d x] Hx]; [left; done|]. rewrite append_cons in Hx.
      injection Hx as -> ->. right. by exists x.
Qed.

Lemma no_wildcard_cons c p :
  no_wildcard (String c p) = true ↔
  c ≠ "*"%char ∧ c ≠ "?"%char ∧ c ≠ "["%char ∧ c ≠ "\"%char ∧ no_wildcard p = true.
Proof.
  unfold no_wildcard. simpl.
  rewrite !negb_orb, !andb_true_iff, !negb_true_iff, !bool_decide_eq_false.
  tauto.
Qed.

(** A pattern without wildcards matches exactly itself. *)
Lemma fnmatch_literal p n : no_wildcard p = true → fnmatch p n = bool_decide (n = p).
Proof.
  revert n. induction p as [|c p IH]; intros n Hp.
  - destruct n; cbn [fnmatch]; [by rewrite bool_decide_true | by rewrite bool_decide_false].
  - apply no_wildcard_cons in Hp as (H1 & H2 & _ & H4 & Hp). cbn [fnmatch].
    rewrite !decide_False by done.
    destruct n as [|d n]; [by rewrite bool_decide_false|].
    rewrite IH by done. repeat case_bool_decide; simpl; congruence.
Qed.

Lemma string_eqb_decide (a b : string) : String.eqb a b = bool_decide (a = b).
Proof. apply eq_bool_prop_intro. rewrite Is_true_true, String.eqb_eq. by rewrite bool_decide_spec. Qed.

(** The equations of ['*']: it matches the empty run, or one
    non-separator character followed by a match of ['*'] again. *)
Lemma fnmatch_star_nil p : fnmatch (String "*" p) "" = fnmatch p "".
Proof. cbn [fnmatch]. rewrite decide_True by done. apply orb_false_r. Qed.

Lemma fnmatch_star_cons p d n :
  fnmatch (String "*" p) (String d n) =
  fnmatch p (String d n) || (bool_decide (d ≠ "/"%char) && fnmatch (String "*" p) n).
Proof. reflexivity. Qed.

(** The pattern [*<lit>] that [read_files] builds (["*." ++ ext]) is
    exactly the [endswith] test on a path component. *)
Lemma fnmatch_star_suffix lit n :
  no_wildcard lit = true → str_has "/" n = false →
  fnmatch (String "*" lit) n = str_endswith lit n.
Proof.
  intros Hlit. induction n as [|d n IH]; intros Hn; cbn [str_endswith].
  - rewrite fnmatch_star_nil, fnmatch_literal, string_eqb_decide by done. by rewrite orb_false_r.
  - cbn [str_has] in Hn. apply orb_false_iff in Hn as [Hd Hn].
    rewrite fnmatch_star_cons, IH, fnmatch_literal, string_eqb_decide by done.
    rewrite bool_decide_eq_false in Hd. rewrite (bool_decide_true (d ≠ "/"%char)) by done. by rewrite andb_true_l.
Qed.

(** Adequacy of the model of [sorted]: any list that is sorted and has the
    same elements is [py_sorted l], so the merge sort of the model and
    CPython's Timsort agree. *)
Lemma py_sorted_unique l l' : Sorted String.le l' → l' ≡ₚ l → py_sorted l = l'.
Proof.
  intros Hs Hp. apply (Sorted_unique String.le); [apply py_sorted_Sorted|done|].
  by rewrite py_sorted_perm, Hp.
Qed.

End PyStr.
