(* ===== verification/FileSystem.v ===== *)
(** * The file system the program reads

    A directory tree ([node]) seen from the working directory, with the
    four operations [dataset.py] performs on it:
    [os.path.join] ([os_path_join]), [tf.io.gfile.listdir] ([listdir]),
    [tf.io.gfile.glob] ([glob]) and [tf.io.read_file] ([read_file]).
    [glob] follows TensorFlow's [GetMatchingPaths]: the components before
    the first one holding a wildcard character name a fixed directory,
    and each later component is matched against the children of one
    level with [fnmatch(..., FNM_PATHNAME)], so that ["**"] matches one
    path component exactly, not a chain of them. *)

From S2P Require Import Prelude PyStr.
Import PyStr.

Module FileSystem.

Local Open Scope string_scope.

(** A file holds bytes; a directory holds named entries, in the order the
    operating system lists them. *)
Inductive node : Type :=
| File (contents : list byte)
| Dir (entries : list (string * node)).

(** The first entry of a directory with a given name. *)
Fixpoint lookup_entry (name : string) (es : list (string * node)) : option node :=
  match es with
  | [] => None
  | (n, child) :: es' => if decide (n = name) then Some child else lookup_entry name es'
  end.

(** Resolve the components of a relative path; empty components (["a//b"],
    a leading ["/"]) and ["."] stay in place. *)
Fixpoint resolve (n : node) (comps : list string) : option node :=
  match comps with
  | [] => Some n
  | c :: cs =>
      if decide (c = "" ∨ c = ".") then resolve n cs
      else match n with
           | Dir es => match lookup_entry c es with
                       | Some child => resolve child cs
                       | None => None
                       end
           | File _ => None
           end
  end.

Definition resolve_path (fs : node) (path : string) : option node :=
  resolve fs (str_split "/" path).

(** [os.path.join(a, b)] for a relative [b]. *)
Definition os_path_join (a b : string) : string :=
  if decide (a = "") then b
  else if str_endswith "/" a then a +:+ b
  else a +:+ "/" +:+ b.

(** [tf.io.gfile.listdir(path)]: the names of the entries; a
    [NotFoundError] when [path] is not a directory. *)
Definition listdir (fs : node) (path : string) : result (list string) :=
  match resolve_path fs path with
  | Some (Dir es) => Ok (fst <$> es)
  | _ => Err (NotFoundError path)
  end.

(** [tf.io.read_file(path)]. *)
Definition read_file (fs : node) (path : string) : result (list byte) :=
  match resolve_path fs path with
  | Some (File bs) => Ok bs
  | Some (Dir _) => Err (FailedPreconditionError path)
  | None => Err (NotFoundError path)
  end.

(** The relative paths below [n] whose components match [pats] one level
    each; only directories are entered. *)
Fixpoint expand (n : node) (pats : list string) : list (list string) :=
  match pats with
  | [] => [[]]
  | p :: ps =>
      match n with
      | File _ => []
      | Dir es =>
          flat_map (λ e : string * node,
            if fnmatch p e.1 then cons e.1 <$> (match ps with
                                                   | [] => [[]]
                                                   | _ => expand e.2 ps
                                                   end)
            else []) es
      end
  end.

(** Cut a pattern's components before the first one that holds a
    wildcard character. *)
Fixpoint split_fixed (comps : list string) : list string * list string :=
  match comps with
  | [] => ([], [])
  | c :: cs =>
      if no_wildcard c then let '(f, w) := split_fixed cs in (c :: f, w)
      else ([], comps)
  end.

(** [tf.io.gfile.glob(pattern)]. *)
Definition glob (fs : node) (pattern : string) : list string :=
  let comps := str_split "/" pattern in
  let '(fixed, wild) := split_fixed comps in
  match wild with
  | [] => match resolve fs comps with Some _ => [pattern] | None => [] end
  | _ =>
      let dir := match fixed with [] => "." | _ => str_join "/" fixed end in
      match resolve fs fixed with
      | Some n => (λ rel, str_join "/" (dir :: rel)) <$> expand n wild
      | None => []
      end
  end.

(** ** Well-formed trees *)

(** An entry name is what a directory can hold: non-empty, without a
    separator, neither ["."] nor [".."]. *)
Definition valid_name (name : string) : bool :=
  bool_decide (name ≠ "") && negb (str_has "/" name) &&
  bool_decide (name ≠ ".") && bool_decide (name ≠ "..").

(** Names are valid and distinct in every directory of the tree. *)
Fixpoint wf_node (n : node) : bool :=
  match n with
  | File _ => true
  | Dir es =>
      bool_decide (NoDup (fst <$> es)) &&
      (fix wf_entries (es : list (string * node)) : bool :=
         match es with
         | [] => true
         | (name, child) :: es' => valid_name name && wf_node child && wf_entries es'
         end) es
  end.

(** The pattern [read_files] passes to [glob]. *)
Definition dataset_pattern (path ext : string) : string :=
  os_path_join path ("**/*." +:+ ext).

(** ** Lemmas *)

Lemma wf_node_Dir es :
  wf_node (Dir es) = true ↔
  NoDup (fst <$> es) ∧ Forall (λ e, valid_name e.1 = true ∧ wf_node e.2 = true) es.
Proof.
  cbn [wf_node]. rewrite andb_true_iff, bool_decide_eq_true. apply and_iff_compat_l.
  induction es as [|[name child] es IH]; [split; auto|].
  cbn -[valid_name wf_node]. rewrite !andb_true_iff, Forall_cons, IH. simpl. tauto.
Qed.

Lemma valid_name_no_sep name : valid_name name = true → str_has "/" name = false.
Proof. unfold valid_name. rewrite !andb_true_iff, negb_true_iff. tauto. Qed.

Lemma lookup_entry_elem name es child :
  lookup_entry name es = Some child → (name, child) ∈ es.
Proof.
  induction es as [|[n c] es IH]; simpl; [done|].
  case_decide; [intros [= ->]; subst; left|intros; right; auto].
Qed.

Lemma wf_entry es name child :
  wf_node (Dir es) = true → (name, child) ∈ es →
  valid_name name = true ∧ wf_node child = true.
Proof.
  intros [_ Hall]%wf_node_Dir Hin. by apply (Forall_forall _ _) with (x := (name, child)) in Hall.
Qed.

(** Every directory reachable in a well-formed tree is well formed. *)
Lemma wf_resolve fs comps n : wf_node fs = true → resolve fs comps = Some n → wf_node n = true.
Proof.
  revert fs. induction comps as [|c cs IH]; intros fs Hwf; simpl; [by intros [= <-]|].
  case_decide; [by apply IH|].
  destruct fs as [bs|es]; [done|].
  destruct (lookup_entry c es) as [child|] eqn:E; [|done].
  apply IH. eapply wf_entry; [done|]. by apply lookup_entry_elem.
Qed.

Lemma listdir_Dir fs path es :
  resolve_path fs path = Some (Dir es) → listdir fs path = Ok (fst <$> es).
Proof. unfold listdir. by intros ->. Qed.

(** The pieces of a split never contain the separator. *)
Lemma str_split_no_sep_pieces sep s : Forall (λ p, str_has sep p = false) (str_split sep s).
Proof.
  induction s as [|c s IH]; simpl; [constructor; done|].
  case_decide as Hc; [by constructor|].
  destruct (str_split sep s) as [|p ps] eqn:E; [by destruct (str_split_ne_nil sep s)|].
  apply Forall_cons in IH as [Hp Hps]. constructor; [|done].
  simpl. rewrite Hp, orb_false_r. by apply bool_decide_eq_false.
Qed.

Lemma str_join_join sep xs ys :
  xs ≠ [] → str_join sep (str_join sep xs :: ys) = str_join sep (xs ++ ys).
Proof.
  intros Hxs. destruct ys as [|y ys]; [by rewrite app_nil_r|].
  induction xs as [|x xs IH]; [done|]. clear Hxs.
  destruct xs as [|x' xs]; [reflexivity|].
  change ((x :: x' :: xs) ++ y :: ys)%list with (x :: ((x' :: xs) ++ y :: ys))%list.
  rewrite (str_join_cons sep (str_join sep _)), (str_join_cons sep x (_ ++ _)%list) by done.
  rewrite <-IH by done. rewrite (str_join_cons sep x (x' :: xs)) by done.
  rewrite (str_join_cons sep (str_join sep (x' :: xs))) by done.
  by rewrite <-append_assoc, append_cons.
Qed.

Lemma str_has_app c s t : str_has c (s +:+ t) = str_has c s || str_has c t.
Proof. induction s as [|d s IH]; [done|]. rewrite append_cons. simpl. by rewrite IH, orb_assoc. Qed.

Lemma dataset_pattern_eq path ext :
  path ≠ "" → str_endswith "/" path = false →
  dataset_pattern path ext = path +:+ String "/" ("**/*." +:+ ext).
Proof.
  intros H1 H2. unfold dataset_pattern, os_path_join. rewrite decide_False, H2 by done.
  reflexivity.
Qed.

(** The components of the pattern: those of the root, then ["**"] and
    ["*.<ext>"]. *)
Lemma str_split_dataset_pattern path ext :
  path ≠ "" → str_endswith "/" path = false → str_has "/" ext = false →
  str_split "/" (dataset_pattern path ext) = (str_split "/" path ++ ["**"; "*." +:+ ext])%list.
Proof.
  intros H1 H2 H3. rewrite dataset_pattern_eq, str_split_app_sep by done. f_equal.
  change ("**/*." +:+ ext) with ("**" +:+ String "/" ("*." +:+ ext)).
  rewrite str_split_app_sep, (str_split_no_sep "/" "**") by done.
  rewrite (str_split_no_sep "/" ("*." +:+ ext)); [done|].
  by rewrite str_has_app.
Qed.

Lemma split_fixed_app comps w ws :
  Forall (λ c, no_wildcard c = true) comps → no_wildcard w = false →
  split_fixed (comps ++ w :: ws)%list = (comps, w :: ws).
Proof.
  intros Hc Hw. induction Hc as [|c cs Hc Hcs IH]; simpl; [by rewrite Hw|].
  by rewrite Hc, IH.
Qed.

Lemma elem_of_flat_map {A B} (f : A → list B) (l : list A) (y : B) :
  y ∈ flat_map f l ↔ ∃ x, x ∈ l ∧ y ∈ f x.
Proof. rewrite !list_elem_of_In, in_flat_map. by setoid_rewrite list_elem_of_In. Qed.

(** Two levels of expansion: a directory entry matching the first pattern,
    then an entry of it matching the second. *)
Lemma expand_two n p1 p2 rel :
  rel ∈ expand n [p1; p2] ↔
  ∃ es c es' f x, n = Dir es ∧ (c, Dir es') ∈ es ∧ fnmatch p1 c = true ∧
                  (f, x) ∈ es' ∧ fnmatch p2 f = true ∧ rel = [c; f].
Proof.
  destruct n as [bs|es]; simpl.
  { split; [by intros ?%elem_of_nil|]. by intros (? & ? & ? & ? & ? & ? & _). }
  rewrite elem_of_flat_map. split.
  - intros ([c child] & Hin & Hrel). simpl in Hrel.
    destruct (fnmatch p1 c) eqn:E1; [|by apply elem_of_nil in Hrel].
    apply list_elem_of_fmap in Hrel as (r & -> & Hr).
    destruct child as [bs|es']; [by apply elem_of_nil in Hr|].
    apply elem_of_flat_map in Hr as ([f x] & Hin' & Hr). simpl in Hr.
    destruct (fnmatch p2 f) eqn:E2; [|by apply elem_of_nil in Hr].
    apply list_elem_of_singleton in Hr as ->.
    exists es, c, es', f, x. naive_solver.
  - intros (? & c & es' & f & x & [= <-] & Hin & E1 & Hin' & E2 & ->).
    exists (c, Dir es'). split; [done|]. simpl. rewrite E1.
    apply list_elem_of_fmap. exists [f]. split; [done|].
    apply elem_of_flat_map. exists (f, x). split; [done|]. simpl. rewrite E2.
    by apply list_elem_of_singleton.
Qed.

Lemma fnmatch_star_any p n : fnmatch p n = true → fnmatch (String "*" p) n = true.
Proof. destruct n; [by rewrite fnmatch_star_nil|]. rewrite fnmatch_star_cons. by intros ->. Qed.

(** ["**"] matches every entry name. *)
Lemma fnmatch_starstar name : str_has "/" name = false → fnmatch "**" name = true.
Proof.
  intros H. apply fnmatch_star_any. rewrite (fnmatch_star_suffix "") by done.
  apply str_endswith_spec. exists name. by rewrite append_nil_r.
Qed.

Lemma glob_dir_nonempty (l : list string) :
  l ≠ [] → match l with [] => "." | _ => str_join "/" l end = str_join "/" l.
Proof. by destruct l. Qed.

(** Soundness: a path [glob] returns for [os.path.join(root, '**/*.<ext>')]
    is [root/c/f] for a directory entry [c] of the root and an entry [f]
    of [c] ending in [.<ext>]. *)
Lemma glob_dataset_pattern_sound fs path ext es p :
  wf_node fs = true → resolve_path fs path = Some (Dir es) →
  path ≠ "" → str_endswith "/" path = false →
  Forall (λ c, no_wildcard c = true) (str_split "/" path) →
  no_wildcard ext = true → str_has "/" ext = false →
  p ∈ glob fs (dataset_pattern path ext) →
  ∃ c es' f x, (c, Dir es') ∈ es ∧ (f, x) ∈ es' ∧
    str_endswith ("." +:+ ext) f = true ∧
    p = str_join "/" (str_split "/" path ++ [c; f])%list.
Proof.
  intros Hwf Hres Hne Hslash Hfixed Hext Hextsep.
  pose proof (wf_resolve _ _ _ Hwf Hres) as Hwfr.
  unfold glob. rewrite str_split_dataset_pattern, split_fixed_app by done.
  unfold resolve_path in Hres. rewrite Hres.
  rewrite glob_dir_nonempty by apply str_split_ne_nil.
  rewrite list_elem_of_fmap. intros (rel & -> & Hrel). apply expand_two in Hrel
    as (? & c & es' & f & x & [= <-] & Hin & _ & Hin' & Hf & ->).
  exists c, es', f, x. rewrite str_join_join by apply str_split_ne_nil.
  split_and!; [done|done| |done].
  destruct (wf_entry _ _ _ Hwfr Hin) as [_ Hwfc].
  destruct (wf_entry _ _ _ Hwfc Hin') as [Hvf _].
  rewrite <-(fnmatch_star_suffix ("." +:+ ext)); [done| |by apply valid_name_no_sep].
  by apply (no_wildcard_cons "." ext).
Qed.

(** Completeness: every such [root/c/f] is returned. *)
Lemma glob_dataset_pattern_complete fs path ext es c es' f x :
  wf_node fs = true → resolve_path fs path = Some (Dir es) →
  path ≠ "" → str_endswith "/" path = false →
  Forall (λ c, no_wildcard c = true) (str_split "/" path) →
  no_wildcard ext = true → str_has "/" ext = false →
  (c, Dir es') ∈ es → (f, x) ∈ es' → str_endswith ("." +:+ ext) f = true →
  str_join "/" (str_split "/" path ++ [c; f])%list ∈ glob fs (dataset_pattern path ext).
Proof.
  intros Hwf Hres Hne Hslash Hfixed Hext Hextsep Hin Hin' Hf.
  pose proof (wf_resolve _ _ _ Hwf Hres) as Hwfr.
  unfold glob. rewrite str_split_dataset_pattern, split_fixed_app by done.
  unfold resolve_path in Hres. rewrite Hres.
  rewrite glob_dir_nonempty by apply str_split_ne_nil.
  apply list_elem_of_fmap. exists [c; f]. rewrite str_join_join by apply str_split_ne_nil.
  split; [done|]. apply expand_two. exists es, c, es', f, x.
  destruct (wf_entry _ _ _ Hwfr Hin) as [Hvc Hwfc].
  destruct (wf_entry _ _ _ Hwfc Hin') as [Hvf _].
  split_and!; try done.
  - by apply fnmatch_starstar, valid_name_no_sep.
  - rewrite (fnmatch_star_suffix ("." +:+ ext)); [done| |by apply valid_name_no_sep].
    by apply (no_wildcard_cons "." ext).
Qed.

(** C3: the files [read_files] lists are exactly the paths [root/c/f]
    where [c] is a directory entry of the root and [f] an entry of [c]
    ending in [.<ext>]: one level of subdirectories, no deeper. *)
Theorem glob_dataset_pattern_elem fs path ext es p :
  wf_node fs = true → resolve_path fs path = Some (Dir es) →
  path ≠ "" → str_endswith "/" path = false →
  Forall (λ c, no_wildcard c = true) (str_split "/" path) →
  no_wildcard ext = true → str_has "/" ext = false →
  p ∈ glob fs (dataset_pattern path ext) ↔
  ∃ c es' f x, (c, Dir es') ∈ es ∧ (f, x) ∈ es' ∧
    str_endswith ("." +:+ ext) f = true ∧
    p = str_join "/" (str_split "/" path ++ [c; f])%list.
Proof.
  intros. split; [by apply glob_dataset_pattern_sound|].
  intros (c & es' & f & x & Hin & Hin' & Hf & ->). by eapply glob_dataset_pattern_complete.
Qed.

Lemma resolve_app n xs ys : resolve n (xs ++ ys) = resolve n xs ≫= λ m, resolve m ys.
Proof.
  revert n. induction xs as [|x xs IH]; intros n; simpl; [done|].
  case_decide; [apply IH|]. destruct n as [bs|es]; [done|].
  destruct (lookup_entry x es); [apply IH|done].
Qed.

Lemma lookup_entry_NoDup name es child :
  NoDup (fst <$> es) → (name, child) ∈ es → lookup_entry name es = Some child.
Proof.
  induction es as [|[n c] es IH]; simpl; [by intros _ ?%elem_of_nil|].
  intros [Hn Hnd]%NoDup_cons [[= -> ->]|Hin]%elem_of_cons; [by rewrite decide_True|].
  rewrite decide_False; [by apply IH|]. intros ->.
  apply Hn, list_elem_of_fmap. by exists (name, child).
Qed.

Lemma valid_name_not_skipped name : valid_name name = true → ¬ (name = "" ∨ name = ".").
Proof.
  unfold valid_name. rewrite !andb_true_iff, !bool_decide_eq_true. intros (((? & _) & ?) & _).
  tauto.
Qed.

(** Resolving a [glob] result [root/c/f] reaches the entry [f]. *)
Lemma resolve_dataset_entry fs path es c es' f x :
  wf_node fs = true → resolve_path fs path = Some (Dir es) →
  (c, Dir es') ∈ es → (f, x) ∈ es' →
  resolve fs (str_split "/" path ++ [c; f])%list = Some x.
Proof.
  intros Hwf Hres Hin Hin'. unfold resolve_path in Hres.
  rewrite resolve_app, Hres. simpl.
  pose proof (wf_resolve _ _ _ Hwf Hres) as Hwfr.
  destruct (wf_entry _ _ _ Hwfr Hin) as [Hvc Hwfc].
  destruct (wf_entry _ _ _ Hwfc Hin') as [Hvf _].
  rewrite decide_False by (by apply valid_name_not_skipped).
  rewrite (lookup_entry_NoDup c es (Dir es')); [|by apply wf_node_Dir|done].
  rewrite decide_False by (by apply valid_name_not_skipped).
  rewrite (lookup_entry_NoDup f es' x); [done| |done].
  by apply wf_node_Dir.
Qed.

(** The components of [root/c/f] are those of the root, then [c] and [f]. *)
Lemma str_split_dataset_path path c f :
  valid_name c = true → valid_name f = true →
  str_split "/" (str_join "/" (str_split "/" path ++ [c; f])) = (str_split "/" path ++ [c; f])%list.
Proof.
  intros Hc Hf. apply str_split_join.
  - by destruct (str_split "/" path).
  - apply Forall_app. split; [apply str_split_no_sep_pieces|].
    repeat constructor; by apply valid_name_no_sep.
Qed.

(** The contents [read_file] returns for an entry. *)
Definition entry_contents (path : string) (x : node) : result (list byte) :=
  match x with
  | File bs => Ok bs
  | Dir _ => Err (FailedPreconditionError path)
  end.

Lemma read_file_dataset_entry fs path es c es' f x :
  wf_node fs = true → resolve_path fs path = Some (Dir es) →
  (c, Dir es') ∈ es → (f, x) ∈ es' →
  read_file fs (str_join "/" (str_split "/" path ++ [c; f])) =
  entry_contents (str_join "/" (str_split "/" path ++ [c; f])) x.
Proof.
  intros Hwf Hres Hin Hin'.
  pose proof (wf_resolve _ _ _ Hwf Hres) as Hwfr.
  destruct (wf_entry _ _ _ Hwfr Hin) as [Hvc Hwfc].
  destruct (wf_entry _ _ _ Hwfc Hin') as [Hvf _].
  unfold read_file, resolve_path. rewrite str_split_dataset_path by done.
  rewrite (resolve_dataset_entry fs path es c es' f x) by done.
  by destruct x.
Qed.

Lemma str_join_snoc sep xs y :
  xs ≠ [] → str_join sep (xs ++ [y]) = str_join sep xs +:+ String sep y.
Proof. intros Hxs. rewrite <-str_join_join by done. by rewrite str_join_cons. Qed.

(** ** An example tree

    [data/Test] holds the class directories [cat] and [dog] and a stray
    file [README]; [cat] holds an image, a nested directory [sub] with an
    image, and a directory named like an image. *)
Definition example_root_entries : list (string * node) :=
  [("dog", Dir [("b.png", File [x01; x02]); ("c.jpg", File [x03])]);
   ("cat", Dir [("a.png", File [x01]); ("sub", Dir [("d.png", File [x04])]);
                ("x.png", Dir [])]);
   ("README", File [x05])].

Definition example_fs : node := Dir [("data", Dir [("Test", Dir example_root_entries)])].

(** ** Witnesses *)

Lemma glob_dataset_pattern_elem_witness :
  "data/Test/cat/a.png" ∈ glob example_fs (dataset_pattern "data/Test" "png") ↔
  ∃ c es' f x, (c, Dir es') ∈ example_root_entries ∧ (f, x) ∈ es' ∧
    str_endswith ("." +:+ "png") f = true ∧
    "data/Test/cat/a.png" = str_join "/" (str_split "/" "data/Test" ++ [c; f])%list.
Proof.
  apply glob_dataset_pattern_elem;
    first [reflexivity | discriminate | repeat constructor].
Defined.

End FileSystem.
