(* ===== verification/Backbone.v ===== *)
(** * [src/models/backbone.py]: class [Backbone]

    The Python object is the record [Backbone]; its constructor is
    [Backbone___init__] and its method [import_backbone] is
    [import_backbone].  The three Keras application constructors
    ([DenseNet121], [MobileNetV3Small], [EfficientNetB0] of
    [tensorflow.keras.applications]) are library code: the class
    [KerasApps] gives them as one operation [keras_app], and
    [KerasAppsLaws] states the only property the theorems use (the model
    returned is the architecture asked for, with the given head, weights
    and input shape).  The flag [debug] is Python's [__debug__]: the
    three [assert]s are skipped under [python -O]. *)

From S2P Require Import Prelude PyStr.
Import PyStr.
From Stdlib Require Import ZArith.

Module Backbone.

Local Open Scope string_scope.

(** The architectures [import_backbone] can build. *)
Inductive arch : Type := DenseNet121 | MobileNetV3Small | EfficientNetB0.

#[export] Instance arch_eq_dec : EqDecision arch.
Proof. solve_decision. Defined.

(** The part of a Keras model the code reads or writes. *)
Record keras_model : Type := {
  km_arch : arch;
  km_include_top : bool;
  km_weights : option string;
  km_input_shape : list Z;
  km_trainable : bool;
}.

(** The Keras application constructors: [arch(include_top=..., weights=...,
    input_shape=...)], which may raise. *)
Class KerasApps : Type := {
  keras_app : arch → bool → option string → list Z → result keras_model;
}.

Class KerasAppsLaws `{KerasApps} : Prop := {
  keras_app_spec : ∀ a top w shape m,
    keras_app a top w shape = Ok m →
    km_arch m = a ∧ km_include_top m = top ∧ km_weights m = w ∧ km_input_shape m = shape;
}.

(** The attributes of a constructed [Backbone] object. *)
Record Backbone : Type := {
  backbone_name : string;
  input_shape : list Z;
  backbone_weights : option string;
  backbone_trainable : bool;
  _backbone : option keras_model;
}.

(** The names the constructor accepts (line 7). *)
Definition backbone_names : list string := ["densenet121"; "mobilenetv3"; "effnetb0"].

(** [model.trainable = t] on a Keras model. *)
Definition set_trainable (t : bool) (m : keras_model) : keras_model :=
  {| km_arch := km_arch m; km_include_top := km_include_top m;
     km_weights := km_weights m; km_input_shape := km_input_shape m;
     km_trainable := t |}.

Section WithKeras.
Context `{KerasApps}.

(** [Backbone.import_backbone]: dispatch on the lower-cased name; [None]
    for any other name. *)
Definition import_backbone (name : string) (weights : option string) (shape : list Z)
    : result (option keras_model) :=
  if decide (py_lower name = "densenet121") then
    Some <$> keras_app DenseNet121 false weights shape
  else if decide (py_lower name = "mobilenetv3") then
    Some <$> keras_app MobileNetV3Small false weights shape
  else if decide (py_lower name = "effnetb0") then
    Some <$> keras_app EfficientNetB0 false weights shape
  else Ok None.

(** [Backbone.__init__]. *)
Definition Backbone___init__ (debug : bool) (name : string) (shape : list Z)
    (weights : option string) (trainable : bool) : result Backbone :=
  _ ← py_assert debug (bool_decide (name ∈ backbone_names));
  _ ← py_assert debug (bool_decide (length shape = 3));
  _ ← py_assert debug (bool_decide (weights = None ∨ weights = Some "imagenet"));
  let t := match weights with Some _ => trainable | None => true end in
  m ← import_backbone name weights shape;
  Ok {| backbone_name := name; input_shape := shape; backbone_weights := weights;
        backbone_trainable := t; _backbone := set_trainable t <$> m |}.

(** The property [Backbone.backbone]. *)
Definition backbone (b : Backbone) : option keras_model := _backbone b.

End WithKeras.

(** A Keras stand-in for the witnesses: it builds the model, and refuses
    ImageNet weights for an input that does not have three channels or
    is smaller than 32x32, as Keras does. *)
Definition keras_reference : KerasApps := {|
  keras_app a top w shape :=
    match w, shape with
    | Some _, [h; wd; c] =>
        if decide (c ≠ 3 ∨ h < 32 ∨ wd < 32)%Z then Err (ValueError "input_shape")
        else Ok {| km_arch := a; km_include_top := top; km_weights := w;
                   km_input_shape := shape; km_trainable := true |}
    | _, _ => Ok {| km_arch := a; km_include_top := top; km_weights := w;
                    km_input_shape := shape; km_trainable := true |}
    end;
|}.

(** ** Specification of the dispatch *)

(** The closed table from a validated name to its architecture. *)
Definition arch_of_name (name : string) : option arch :=
  if decide (name = "densenet121") then Some DenseNet121
  else if decide (name = "mobilenetv3") then Some MobileNetV3Small
  else if decide (name = "effnetb0") then Some EfficientNetB0
  else None.

(** The trainable flag [__init__] computes (lines 16-19). *)
Definition trainable_flag (weights : option string) (trainable : bool) : bool :=
  match weights with Some _ => trainable | None => true end.

(** ** Lemmas *)

Lemma backbone_names_cases name :
  name ∈ backbone_names ↔ name = "densenet121" ∨ name = "mobilenetv3" ∨ name = "effnetb0".
Proof. unfold backbone_names. rewrite !elem_of_cons, elem_of_nil. tauto. Qed.

Lemma arch_of_name_Some name : is_Some (arch_of_name name) ↔ name ∈ backbone_names.
Proof.
  rewrite backbone_names_cases. unfold arch_of_name. split.
  - intros [a Ha]. repeat case_decide; simplify_eq; auto.
  - intros [->|[->| ->]]; by eexists.
Qed.

Lemma py_lower_backbone_name name : name ∈ backbone_names → py_lower name = name.
Proof. rewrite backbone_names_cases. by intros [->|[->| ->]]. Qed.

Section WithKerasLaws.
Context `{KerasApps}.

(** [import_backbone] is the table [arch_of_name] applied to the
    lower-cased name. *)
Lemma import_backbone_arch name weights shape :
  import_backbone name weights shape =
  match arch_of_name (py_lower name) with
  | Some a => Some <$> keras_app a false weights shape
  | None => Ok None
  end.
Proof. unfold import_backbone, arch_of_name. by repeat case_decide. Qed.

Lemma Backbone_init_asserts_pass debug name shape weights trainable :
  name ∈ backbone_names → length shape = 3 → weights = None ∨ weights = Some "imagenet" →
  Backbone___init__ debug name shape weights trainable =
  (m ← import_backbone name weights shape;
   Ok {| backbone_name := name; input_shape := shape; backbone_weights := weights;
         backbone_trainable := trainable_flag weights trainable;
         _backbone := set_trainable (trainable_flag weights trainable) <$> m |}).
Proof.
  intros Hn Hl Hw. unfold Backbone___init__.
  rewrite !bool_decide_true by done. by rewrite !py_assert_true.
Qed.

(** With assertions enabled, a successful construction had valid
    arguments. *)
Lemma Backbone_init_Ok_args name shape weights trainable b :
  Backbone___init__ true name shape weights trainable = Ok b →
  name ∈ backbone_names ∧ length shape = 3 ∧ (weights = None ∨ weights = Some "imagenet").
Proof.
  unfold Backbone___init__. intros Hb.
  destruct (decide (name ∈ backbone_names)) as [Hn|Hn];
    [rewrite (bool_decide_true _ Hn), py_assert_true in Hb
    |rewrite (bool_decide_false _ Hn), py_assert_fail in Hb; discriminate Hb].
  destruct (decide (length shape = 3)) as [Hl|Hl];
    [rewrite (bool_decide_true _ Hl), py_assert_true in Hb
    |rewrite (bool_decide_false _ Hl), py_assert_fail in Hb; discriminate Hb].
  destruct (decide (weights = None ∨ weights = Some "imagenet")) as [Hw|Hw];
    [done|rewrite (bool_decide_false _ Hw), py_assert_fail in Hb; discriminate Hb].
Qed.

(** C5: on valid arguments the constructor calls the Keras constructor of
    the named architecture without its head, and either propagates its
    exception or returns an object whose model is that result with the
    computed trainable flag. *)
Theorem Backbone_init_valid debug name shape weights trainable a :
  arch_of_name name = Some a → length shape = 3 →
  weights = None ∨ weights = Some "imagenet" →
  Backbone___init__ debug name shape weights trainable =
  (λ m, {| backbone_name := name; input_shape := shape; backbone_weights := weights;
           backbone_trainable := trainable_flag weights trainable;
           _backbone := Some (set_trainable (trainable_flag weights trainable) m) |})
    <$> keras_app a false weights shape.
Proof.
  intros Ha Hl Hw.
  assert (Hn : name ∈ backbone_names) by (apply arch_of_name_Some; by rewrite Ha).
  rewrite Backbone_init_asserts_pass, import_backbone_arch, py_lower_backbone_name, Ha by done.
  by destruct (keras_app a false weights shape).
Qed.

(** C6: with assertions enabled, an unknown name, a shape of another
    length, or weights other than [None] and ["imagenet"] raise
    [AssertionError] before anything is built. *)
Theorem Backbone_init_invalid name shape weights trainable :
  name ∉ backbone_names ∨ length shape ≠ 3 ∨ ¬ (weights = None ∨ weights = Some "imagenet") →
  Backbone___init__ true name shape weights trainable = Err AssertionError.
Proof.
  intros Hbad. unfold Backbone___init__.
  destruct (decide (name ∈ backbone_names)) as [Hn|Hn];
    [rewrite (bool_decide_true _ Hn), py_assert_true|by rewrite (bool_decide_false _ Hn)].
  destruct (decide (length shape = 3)) as [Hl|Hl];
    [rewrite (bool_decide_true _ Hl), py_assert_true|by rewrite (bool_decide_false _ Hl)].
  destruct (decide (weights = None ∨ weights = Some "imagenet")) as [Hw|Hw];
    [naive_solver|by rewrite (bool_decide_false _ Hw)].
Qed.

(** C7: whatever the arguments and the [-O] flag, an object that is
    built without ImageNet weights is trainable, and its model carries
    the object's trainable flag. *)
Theorem Backbone_init_trainable debug name shape weights trainable b :
  Backbone___init__ debug name shape weights trainable = Ok b →
  (backbone_weights b = None → backbone_trainable b = true) ∧
  (∀ m, backbone b = Some m → km_trainable m = backbone_trainable b).
Proof.
  unfold Backbone___init__, backbone. intros Hb. inv_result. simpl.
  split; [by intros ->|]. intros m Hm.
  destruct a2 as [m0|]; simplify_eq/=. done.
Qed.

(** C22: the [None] branch of [import_backbone] is unreachable for a name
    the constructor accepts. *)
Theorem import_backbone_validated name weights shape :
  name ∈ backbone_names → import_backbone name weights shape ≠ Ok None.
Proof.
  intros Hn. rewrite import_backbone_arch, py_lower_backbone_name by done.
  apply arch_of_name_Some in Hn as [a ->].
  by destruct (keras_app a false weights shape).
Qed.

Context `{!KerasAppsLaws}.

(** C11: with assertions enabled, a constructed object always holds a
    headless model of the requested input shape, of length three. *)
Theorem Backbone_init_extractor name shape weights trainable b :
  Backbone___init__ true name shape weights trainable = Ok b →
  length shape = 3 ∧ ∃ m, backbone b = Some m ∧ km_input_shape m = shape ∧
    km_include_top m = false ∧ Some (km_arch m) = arch_of_name name.
Proof.
  intros Hb. destruct (Backbone_init_Ok_args _ _ _ _ _ Hb) as (Hn & Hl & Hw).
  split; [done|]. destruct (arch_of_name_Some name) as [_ [a Ha]]; [done|].
  rewrite Backbone_init_asserts_pass, import_backbone_arch, py_lower_backbone_name, Ha in Hb
    by done.
  destruct (keras_app a false weights shape) as [m|] eqn:Hk; [|done].
  injection Hb as <-. exists (set_trainable (trainable_flag weights trainable) m).
  destruct (keras_app_spec _ _ _ _ _ Hk) as (Ha' & Ht & _ & Hs). simpl. by rewrite Ha, Ha'.
Qed.

(** C23: under [python -O] the assertions are gone: a name outside the
    table (after lower-casing) gives an object whose [backbone] is
    [None], instead of an error. *)
Theorem Backbone_init_optimized_unknown name shape weights trainable :
  arch_of_name (py_lower name) = None →
  ∃ b, Backbone___init__ false name shape weights trainable = Ok b ∧ backbone b = None.
Proof.
  intros Hnone. unfold Backbone___init__. rewrite !py_assert_off.
  cbn [mbind result_bind]. rewrite import_backbone_arch, Hnone. by eexists.
Qed.

End WithKerasLaws.

#[export] Instance keras_reference_laws : @KerasAppsLaws keras_reference.
Proof.
  split. intros a top w shape m. simpl.
  destruct w as [w|]; [destruct shape as [|h [|wd [|c [|]]]]; try case_decide|];
    intros [= <-]; simpl; auto.
Qed.

(** ** Witnesses on concrete arguments *)

Definition shape224 : list Z := [224; 224; 3]%Z.

Lemma Backbone_init_valid_witness :
  @Backbone___init__ keras_reference true "effnetb0" shape224 (Some "imagenet") false =
  Ok {| backbone_name := "effnetb0"; input_shape := shape224;
        backbone_weights := Some "imagenet"; backbone_trainable := false;
        _backbone := Some {| km_arch := EfficientNetB0; km_include_top := false;
                             km_weights := Some "imagenet"; km_input_shape := shape224;
                             km_trainable := false |} |}.
Proof.
  rewrite (Backbone_init_valid (H:=keras_reference) true "effnetb0" shape224
             (Some "imagenet") false EfficientNetB0);
    [reflexivity | reflexivity | reflexivity | right; reflexivity].
Defined.

Lemma Backbone_init_invalid_witness :
  @Backbone___init__ keras_reference true "resnet50" shape224 None true = Err AssertionError.
Proof.
  apply (Backbone_init_invalid (H:=keras_reference)). left.
  rewrite backbone_names_cases. intros [H|[H|H]]; discriminate H.
Defined.

Definition densenet_untrained : Backbone :=
  {| backbone_name := "densenet121"; input_shape := shape224; backbone_weights := None;
     backbone_trainable := true;
     _backbone := Some {| km_arch := DenseNet121; km_include_top := false; km_weights := None;
                          km_input_shape := shape224; km_trainable := true |} |}.

Lemma Backbone_init_trainable_witness :
  @Backbone___init__ keras_reference true "densenet121" shape224 None false = Ok densenet_untrained ∧
  backbone_trainable densenet_untrained = true.
Proof.
  split; [reflexivity|].
  apply (proj1 (Backbone_init_trainable (H:=keras_reference) true "densenet121" shape224
                  None false densenet_untrained eq_refl)).
  reflexivity.
Defined.

Lemma import_backbone_validated_witness :
  @import_backbone keras_reference "mobilenetv3" None shape224 ≠ Ok None.
Proof.
  apply (import_backbone_validated (H:=keras_reference)).
  apply backbone_names_cases. right; left; reflexivity.
Defined.

Lemma Backbone_init_extractor_witness :
  length shape224 = 3 ∧
  ∃ m, backbone densenet_untrained = Some m ∧ km_input_shape m = shape224 ∧
    km_include_top m = false ∧ Some (km_arch m) = arch_of_name "densenet121".
Proof.
  apply (Backbone_init_extractor (H:=keras_reference) "densenet121" shape224 None false).
  reflexivity.
Defined.

Lemma Backbone_init_optimized_unknown_witness :
  ∃ b, @Backbone___init__ keras_reference false "ResNet50" shape224 None true = Ok b ∧
       backbone b = None.
Proof.
  apply (Backbone_init_optimized_unknown (H:=keras_reference)). reflexivity.
Defined.

End Backbone.
