(* ===== verification/Image.v ===== *)
(** * Image tensors and the TensorFlow image operations the code calls

    An image is an [H x W x C] tensor, a list of rows of pixels of
    channel values.  Decoded images hold [uint8] values as [Z]; resized
    images hold [float32] values as [Q].  The library operations
    [tf.image.decode_png], [tf.image.decode_jpeg] and [tf.image.resize]
    are the classes [ImageCodecs] and [Resize], with the properties the
    theorems rely on in [ImageCodecsLaws] and [ResizeLaws]; the external
    augmentation [train_transforms] is the class [Augment].  Each class
    has a reference instance, used by the witnesses. *)

From S2P Require Import Prelude.
From Stdlib Require Import ZArith QArith.
#[local] Close Scope Q_scope.

Module Image.

Abbreviation image A := (list (list (list A))).

(** Every channel value satisfies [P]. *)
Definition img_forall {A} (P : A → Prop) (img : image A) : Prop :=
  Forall (Forall (Forall P)) img.

(** [img] has shape [h x w x c]. *)
Definition has_shape {A} (h w c : nat) (img : image A) : Prop :=
  length img = h ∧ Forall (λ row, length row = w ∧ Forall (λ px, length px = c) row) img.

(** Element-wise operation, as [img / 255.] in [process_image]. *)
Definition img_map {A B} (f : A → B) (img : image A) : image B :=
  (λ row : list (list A), (λ px : list A, f <$> px) <$> row) <$> img.

(** [uint8] channel values. *)
Definition is_uint8 (v : Z) : Prop := (0 <= v <= 255)%Z.

(** The codecs: [decode_png(contents, channels=c)] and
    [decode_jpeg(contents, channels=c)]. *)
Class ImageCodecs : Type := {
  decode_png : list byte → nat → result (image Z);
  decode_jpeg : list byte → nat → result (image Z);
}.

Class ImageCodecsLaws `{ImageCodecs} : Prop := {
  decode_png_spec : ∀ bs c img, decode_png bs c = Ok img →
    img_forall is_uint8 img ∧ ∃ h w, h ≠ 0 ∧ w ≠ 0 ∧ has_shape h w c img;
  decode_jpeg_spec : ∀ bs c img, decode_jpeg bs c = Ok img →
    img_forall is_uint8 img ∧ ∃ h w, h ≠ 0 ∧ w ≠ 0 ∧ has_shape h w c img;
}.

(** [tf.image.resize(image, size)]: a [float32] image of the target
    height and width. *)
Class Resize : Type := {
  tf_image_resize : image Z → nat * nat → image Q;
}.

(** What resizing guarantees (true of every interpolation method of
    [tf.image.resize] without antialiasing: each output value is a convex
    combination of input values): the target size, the same number of
    channels, and values inside the input range. *)
Class ResizeLaws `{Resize} : Prop := {
  resize_shape : ∀ img h w c th tw, h ≠ 0 → w ≠ 0 → has_shape h w c img →
    has_shape th tw c (tf_image_resize img (th, tw));
  resize_range : ∀ img lo hi size, img_forall (λ v, lo <= v <= hi)%Z img →
    img_forall (λ q, inject_Z lo <= q <= inject_Z hi)%Q (tf_image_resize img size);
}.

(** The external augmentation [train_transforms(image=img)["image"]]. *)
Class Augment : Type := {
  train_transforms : image Q → image Q;
}.

(** ** Reference instances *)

(** A codec that reads one grey pixel per byte into a [1 x n] image with
    [c] equal channels, and rejects empty contents. *)
Definition grey_decode (bs : list byte) (c : nat) : result (image Z) :=
  match bs with
  | [] => Err (InvalidArgumentError "empty image")
  | _ => Ok [(λ b, replicate c (Z.of_N (Byte.to_N b))) <$> bs]
  end.

Definition codecs_reference : ImageCodecs := {|
  decode_png := grey_decode;
  decode_jpeg := grey_decode;
|}.

(** Nearest-neighbour resizing. *)
Definition nearest_resize (img : image Z) (size : nat * nat) : image Q :=
  let h := length img in
  let w := match img with row :: _ => length row | [] => 0 end in
  (λ i, (λ j, (λ v, inject_Z v) <$>
           default [] (img !! (i * h / size.1) ≫= λ row, row !! (j * w / size.2)))
        <$> seq 0 size.2) <$> seq 0 size.1.

Definition resize_reference : Resize := {| tf_image_resize := nearest_resize |}.

Definition augment_identity : Augment := {| train_transforms := id |}.

(** ** Lemmas *)

Lemma img_forall_map {A B} (P : B → Prop) (f : A → B) (img : image A) :
  img_forall (λ a, P (f a)) img → img_forall P (img_map f img).
Proof.
  unfold img_forall, img_map. intros H.
  apply Forall_fmap, (Forall_impl _ _ _ H). intros row Hrow.
  apply Forall_fmap, (Forall_impl _ _ _ Hrow). intros px Hpx.
  by apply Forall_fmap.
Qed.

Lemma img_forall_impl {A} (P Q : A → Prop) (img : image A) :
  (∀ a, P a → Q a) → img_forall P img → img_forall Q img.
Proof.
  intros HPQ H. unfold img_forall in *.
  eapply Forall_impl; [exact H|]. intros row Hrow.
  eapply Forall_impl; [exact Hrow|]. intros px Hpx.
  eapply Forall_impl; [exact Hpx|]. exact HPQ.
Qed.

Lemma has_shape_map {A B} (f : A → B) h w c (img : image A) :
  has_shape h w c img → has_shape h w c (img_map f img).
Proof.
  unfold has_shape, img_map. intros [Hh Hrows]. rewrite length_fmap. split; [done|].
  apply Forall_fmap, (Forall_impl _ _ _ Hrows). intros row [Hw Hpx]. simpl.
  rewrite length_fmap. split; [done|].
  apply Forall_fmap, (Forall_impl _ _ _ Hpx). intros px Hc. simpl. by rewrite length_fmap.
Qed.

(** ** The reference instances satisfy the laws *)

Lemma nearest_resize_range img lo hi size :
  img_forall (λ v, lo <= v <= hi)%Z img →
  img_forall (λ q, inject_Z lo <= q <= inject_Z hi)%Q (nearest_resize img size).
Proof.
  intros Hr. unfold nearest_resize, img_forall.
  apply Forall_fmap, Forall_forall. intros i _. simpl.
  apply Forall_fmap, Forall_forall. intros j _. simpl.
  apply Forall_fmap.
  destruct (img !! _) as [row|] eqn:E1; simpl; [|constructor].
  destruct (row !! _) as [px|] eqn:E2; simpl; [|constructor].
  assert (Hpx : Forall (λ v, lo <= v <= hi)%Z px).
  { eapply Forall_lookup_1; [eapply Forall_lookup_1; [exact Hr|exact E1]|exact E2]. }
  eapply Forall_impl; [exact Hpx|]. intros v [H1 H2]. simpl. rewrite <-!Zle_Qle. lia.
Qed.

Lemma nearest_resize_shape img h w c th tw :
  h ≠ 0 → w ≠ 0 → has_shape h w c img → has_shape th tw c (nearest_resize img (th, tw)).
Proof.
  intros Hh Hw [Hlen Hrows]. destruct img as [|row0 rows]; [simpl in Hlen; lia|].
  assert (Hw0 : length row0 = w) by (apply Forall_cons in Hrows; tauto).
  unfold nearest_resize. cbn zeta. cbn [fst snd]. rewrite Hlen, Hw0.
  split; [by rewrite length_fmap, length_seq|].
  apply Forall_fmap, Forall_forall. intros i Hi%elem_of_seq. simpl.
  split; [by rewrite length_fmap, length_seq|].
  apply Forall_fmap, Forall_forall. intros j Hj%elem_of_seq. simpl.
  rewrite length_fmap.
  assert (Hi' : i * h / th < length (row0 :: rows)).
  { rewrite Hlen. apply Nat.Div0.div_lt_upper_bound. nia. }
  destruct (lookup_lt_is_Some_2 _ _ Hi') as [row Hrow]. rewrite Hrow. simpl.
  destruct (Forall_lookup_1 _ _ _ _ Hrows Hrow) as [Hrw Hpxs].
  assert (Hj' : j * w / tw < length row).
  { rewrite Hrw. apply Nat.Div0.div_lt_upper_bound. nia. }
  destruct (lookup_lt_is_Some_2 _ _ Hj') as [px Hpx]. rewrite Hpx. simpl.
  exact (Forall_lookup_1 _ _ _ _ Hpxs Hpx).
Qed.

#[export] Instance resize_reference_laws : @ResizeLaws resize_reference.
Proof.
  split.
  - intros img h w c th tw. apply nearest_resize_shape.
  - intros img lo hi size. apply nearest_resize_range.
Qed.

Lemma grey_row_spec c bs :
  let row := (λ b, replicate c (Z.of_N (Byte.to_N b))) <$> bs in
  Forall (Forall is_uint8) row ∧ length row = length bs ∧ Forall (λ px, length px = c) row.
Proof.
  induction bs as [|b bs IH]; simpl; [repeat constructor|].
  destruct IH as (H1 & H2 & H3). split_and!; [constructor|by f_equal|constructor]; try done.
  - apply Forall_replicate. unfold is_uint8. pose proof (Byte.to_N_bounded b). lia.
  - apply length_replicate.
Qed.

Lemma grey_decode_spec bs c img :
  grey_decode bs c = Ok img → img_forall is_uint8 img ∧ ∃ h w, h ≠ 0 ∧ w ≠ 0 ∧ has_shape h w c img.
Proof.
  unfold grey_decode. destruct bs as [|b bs]; [done|]. intros [= <-].
  destruct (grey_row_spec c (b :: bs)) as (H1 & H2 & H3). split.
  - constructor; [exact H1|constructor].
  - exists 1, (S (length bs)). do 2 (split; [done|]). split; [done|].
    constructor; [split; [exact H2|exact H3]|constructor].
Qed.

#[export] Instance codecs_reference_laws : @ImageCodecsLaws codecs_reference.
Proof. split; apply grey_decode_spec. Qed.

End Image.
