(* ===== verification/DecodeImage.v ===== *)
(** * [decode_image] of [src/utils/dataset.py] (lines 11-26)

    [decode_image] reads the file, takes the label from the parent
    directory ([tf.strings.split(path, "/")[-2]]), chooses the codec from
    the extension ([tf.strings.split(path, ".")[-1]], with PNG as the
    fallback) and encodes the label one-hot against the label list
    ([tf.cast(label == labels, tf.float32)]).  The theorems show that for
    every path [glob] returns on a well-formed tree the label is the class
    directory of the file, the codec is the one of the configured
    extension, and the label vector is one-hot at the class's index in
    the sorted label list. *)

From S2P Require Import Prelude PyStr FileSystem Image.
Import PyStr FileSystem Image.
From Stdlib Require Import QArith Lqa.
#[local] Close Scope Q_scope.

Module DecodeImage.

Local Open Scope string_scope.

(** [tf.cast(label == labels, dtype=tf.float32)] (line 25). *)
Definition encode_label (label : string) (labels : list string) : list Q :=
  (λ l, if decide (label = l) then 1%Q else 0%Q) <$> labels.

Section WithCodecs.
Context `{ImageCodecs}.

(** The codec dispatch of lines 16-23. *)
Definition decode_by_ext (ext : string) (img_bin : list byte) : result (image Z) :=
  if decide (ext = "png") then decode_png img_bin 3
  else if decide (ext = "jpeg" ∨ ext = "jpg") then decode_jpeg img_bin 3
  else decode_png img_bin 3.

(** [decode_image(path, labels)]. *)
Definition decode_image (fs : node) (path : string) (labels : list string)
    : result (image Z * list Q) :=
  img_bin ← read_file fs path;
  label ← tf_getitem_neg (str_split "/" path) 2;
  ext ← tf_getitem_neg (str_split "." path) 1;
  img ← decode_by_ext ext img_bin;
  Ok (img, encode_label label labels).

End WithCodecs.

(** The dataset roots and extensions the theorems cover: a non-empty root
    without a trailing separator or wildcard characters (as
    ["data/Test"]), an extension without wildcard, separator or dot (as
    ["png"]). *)
Definition root_ok (path : string) : bool :=
  bool_decide (path ≠ "") && negb (str_endswith "/" path) &&
  forallb no_wildcard (str_split "/" path).

Definition ext_ok (ext : string) : bool :=
  no_wildcard ext && negb (str_has "/" ext) && negb (str_has "." ext).

(** ** One-hot encoding *)

Lemma encode_label_length label labels : length (encode_label label labels) = length labels.
Proof. apply length_fmap. Qed.

Lemma encode_label_lookup label labels j :
  encode_label label labels !! j = (λ l, if decide (label = l) then 1%Q else 0%Q) <$> labels !! j.
Proof. apply list_lookup_fmap. Qed.

Lemma encode_label_cons label l labels :
  encode_label label (l :: labels) =
  (if decide (label = l) then 1%Q else 0%Q) :: encode_label label labels.
Proof. reflexivity. Qed.

(** The one-hot vector of a label at index [i] of a list without
    duplicates: [1] at [i], [0] elsewhere. *)
Lemma encode_label_onehot labels i label :
  NoDup labels → labels !! i = Some label →
  length (encode_label label labels) = length labels ∧
  ∀ j, j < length labels →
    encode_label label labels !! j = Some (if decide (j = i) then 1%Q else 0%Q).
Proof.
  intros Hnd Hi. split; [apply encode_label_length|]. intros j Hj.
  rewrite encode_label_lookup.
  destruct (lookup_lt_is_Some_2 labels j Hj) as [l Hl]. rewrite Hl. simpl. f_equal.
  destruct (decide (j = i)) as [->|Hji].
  - rewrite Hi in Hl. injection Hl as ->. by rewrite decide_True.
  - rewrite decide_False; [done|]. intros ->. apply Hji. by eapply NoDup_lookup.
Qed.

(** C24: a label that is not in the label list (a file whose parent
    directory is not an entry of the root, or any file when the root has
    no entries) is encoded as the zero vector of the list's length, not
    as a one-hot vector. *)
Theorem encode_label_not_member label labels :
  label ∉ labels → encode_label label labels = replicate (length labels) 0%Q.
Proof.
  induction labels as [|l labels IH]; intros Hnot; [done|].
  apply not_elem_of_cons in Hnot as [Hl Hnot].
  rewrite encode_label_cons, decide_False, IH by done. done.
Qed.

(** ** The codec *)

Section WithCodecs.
Context `{ImageCodecs}.

(** C25: an extension other than [png], [jpeg] and [jpg] (as [bmp] or
    [gif]) is not refused: the bytes are decoded as PNG. *)
Theorem decode_by_ext_fallback ext bs :
  ext ≠ "png" → ext ≠ "jpeg" → ext ≠ "jpg" → decode_by_ext ext bs = decode_png bs 3.
Proof.
  intros H1 H2 H3. unfold decode_by_ext. rewrite !decide_False by tauto. done.
Qed.

(** ** Paths returned by [glob] *)

(** The label of [root/c/f] is [c]. *)
Lemma label_of_dataset_path path c f :
  valid_name c = true → valid_name f = true →
  tf_getitem_neg (str_split "/" (str_join "/" (str_split "/" path ++ [c; f])%list)) 2 = Ok c.
Proof.
  intros Hc Hf. rewrite str_split_dataset_path by done. apply tf_getitem_neg_second_last.
Qed.

(** The extension of [root/c/f] is the one [f] ends with. *)
Lemma ext_of_dataset_path path c f ext :
  str_endswith ("." +:+ ext) f = true → str_has "." ext = false →
  tf_getitem_neg (str_split "." (str_join "/" (str_split "/" path ++ [c; f])%list)) 1 = Ok ext.
Proof.
  intros [x ->]%str_endswith_spec Hext.
  replace (str_split "/" path ++ [c; x +:+ ("." +:+ ext)])%list
    with ((str_split "/" path ++ [c]) ++ [x +:+ ("." +:+ ext)])%list by (by rewrite <-app_assoc).
  rewrite str_join_snoc by (by destruct (str_split "/" path)).
  rewrite <-append_cons, append_assoc.
  change ("." +:+ ext) with (String "." ext).
  rewrite str_split_app_sep, (str_split_no_sep _ ext) by done.
  apply tf_getitem_neg_last.
Qed.

(** [decode_image] on a path [root/c/f] that [glob] returned: it reads the
    entry [f], decodes it with the codec of the extension, and labels it
    with [c]. *)
Lemma decode_image_dataset_entry fs path es c es' f x ext labels :
  wf_node fs = true → resolve_path fs path = Some (Dir es) →
  (c, Dir es') ∈ es → (f, x) ∈ es' →
  str_endswith ("." +:+ ext) f = true → str_has "." ext = false →
  decode_image fs (str_join "/" (str_split "/" path ++ [c; f])%list) labels =
  (img_bin ← entry_contents (str_join "/" (str_split "/" path ++ [c; f])%list) x;
   img ← decode_by_ext ext img_bin;
   Ok (img, encode_label c labels)).
Proof.
  intros Hwf Hres Hin Hin' Hf Hext.
  pose proof (wf_resolve _ _ _ Hwf Hres) as Hwfr.
  destruct (wf_entry _ _ _ Hwfr Hin) as [Hvc Hwfc].
  destruct (wf_entry _ _ _ Hwfc Hin') as [Hvf _].
  unfold decode_image.
  rewrite (read_file_dataset_entry fs path es c es' f x) by done.
  destruct (entry_contents _ x); [|done]. cbn [mbind result_bind].
  by rewrite label_of_dataset_path, (ext_of_dataset_path path c f ext) by done.
Qed.

End WithCodecs.

Lemma root_ok_spec path :
  root_ok path = true ↔
  path ≠ "" ∧ str_endswith "/" path = false ∧ Forall (λ c, no_wildcard c = true) (str_split "/" path).
Proof.
  unfold root_ok. rewrite !andb_true_iff, bool_decide_eq_true, negb_true_iff, forallb_forall,
    Forall_forall. setoid_rewrite list_elem_of_In. tauto.
Qed.

Lemma ext_ok_spec ext :
  ext_ok ext = true ↔ no_wildcard ext = true ∧ str_has "/" ext = false ∧ str_has "." ext = false.
Proof. unfold ext_ok. rewrite !andb_true_iff, !negb_true_iff. tauto. Qed.

Section WithCodecs2.
Context `{ImageCodecs}.

(** Every path of the file list is [root/c/f] for a class directory [c]
    and a file [f] of it, and [decode_image] labels it [c]. *)
Lemma decode_image_glob fs path ext es p labels :
  wf_node fs = true → resolve_path fs path = Some (Dir es) → root_ok path = true →
  ext_ok ext = true → p ∈ glob fs (dataset_pattern path ext) →
  ∃ c es' f x, (c, Dir es') ∈ es ∧ (f, x) ∈ es' ∧
    p = str_join "/" (str_split "/" path ++ [c; f])%list ∧
    decode_image fs p labels =
      (img_bin ← entry_contents p x; img ← decode_by_ext ext img_bin;
       Ok (img, encode_label c labels)).
Proof.
  intros Hwf Hres (Hne & Hsl & Hfx)%root_ok_spec (Hw & Hs & Hd)%ext_ok_spec Hp.
  apply (glob_dataset_pattern_sound fs path ext es p) in Hp as (c & es' & f & x & Hin & Hin' & Hf & ->);
    [|done..].
  exists c, es', f, x. split_and!; [done..|].
  by apply (decode_image_dataset_entry fs path es c es' f x ext labels).
Qed.

(** For every path the dataset lists under a well-formed root, a
    successful [decode_image] with the sorted label list labels the image
    with the one-hot vector of its class directory: [1] at the index of
    that directory among [sorted(listdir(root))], [0] elsewhere. *)
Lemma decode_image_onehot fs path ext es p img v :
  wf_node fs = true → resolve_path fs path = Some (Dir es) → root_ok path = true →
  ext_ok ext = true → p ∈ glob fs (dataset_pattern path ext) →
  decode_image fs p (py_sorted (fst <$> es)) = Ok (img, v) →
  ∃ i c f, py_sorted (fst <$> es) !! i = Some c ∧
    p = str_join "/" (str_split "/" path ++ [c; f])%list ∧
    length v = length es ∧
    ∀ j, j < length es → v !! j = Some (if decide (j = i) then 1%Q else 0%Q).
Proof.
  intros Hwf Hres Hroot Hext Hp Hdec.
  destruct (decode_image_glob fs path ext es p (py_sorted (fst <$> es)))
    as (c & es' & f & x & Hin & Hin' & -> & Heq); [done..|].
  rewrite Heq in Hdec. inv_result.
  assert (Hnd : NoDup (py_sorted (fst <$> es))).
  { apply py_sorted_NoDup, wf_node_Dir, (wf_resolve fs (str_split "/" path)); done. }
  assert (Hc : c ∈ py_sorted (fst <$> es)).
  { apply py_sorted_elem, list_elem_of_fmap. by exists (c, Dir es'). }
  destruct (list_elem_of_lookup_1 _ _ Hc) as [i Hi].
  destruct (encode_label_onehot _ _ _ Hnd Hi) as [Hlen Hall].
  assert (Hl : length (py_sorted (fst <$> es)) = length es).
  { by rewrite py_sorted_perm, length_fmap. }
  exists i, c, f. split_and!; [done|done|congruence|]. intros j Hj. apply Hall. lia.
Qed.

End WithCodecs2.

Section WithCodecLaws.
Context `{ImageCodecsLaws}.

(** A decoded image holds [uint8] values in three channels. *)
Lemma decode_by_ext_uint8 ext bs img :
  decode_by_ext ext bs = Ok img →
  img_forall is_uint8 img ∧ ∃ h w, h ≠ 0 ∧ w ≠ 0 ∧ has_shape h w 3 img.
Proof.
  unfold decode_by_ext. repeat case_decide; [apply decode_png_spec|apply decode_jpeg_spec|apply decode_png_spec].
Qed.

(** A decoded element: a non-empty [uint8] image with three channels,
    and a label vector of the length of the label list. *)
Lemma decode_image_uint8 fs p labels img v :
  decode_image fs p labels = Ok (img, v) →
  img_forall is_uint8 img ∧ (∃ h w, h ≠ 0 ∧ w ≠ 0 ∧ has_shape h w 3 img) ∧
  length v = length labels.
Proof.
  unfold decode_image. intros Hd. inv_result.
  destruct (decode_by_ext_uint8 a1 a _ Ha2) as [Hu Hs].
  split_and!; [done|done|apply encode_label_length].
Qed.

End WithCodecLaws.

(** ** Witnesses *)

Example decode_image_onehot_example :
  ∃ i c f, py_sorted (fst <$> example_root_entries) !! i = Some c ∧
    "data/Test/cat/a.png" = str_join "/" (str_split "/" "data/Test" ++ [c; f])%list ∧
    length [0; 1; 0]%Q = length example_root_entries ∧
    ∀ j, j < length example_root_entries →
      [0; 1; 0]%Q !! j = Some (if decide (j = i) then 1%Q else 0%Q).
Proof.
  apply (decode_image_onehot (H:=codecs_reference) example_fs "data/Test" "png"
           example_root_entries "data/Test/cat/a.png" [[[1; 1; 1]]]%Z).
  - reflexivity.
  - reflexivity.
  - reflexivity.
  - reflexivity.
  - apply (bool_decide_unpack _). vm_compute. exact I.
  - reflexivity.
Defined.

Lemma encode_label_not_member_witness :
  encode_label "sub" ["README"; "cat"; "dog"] = [0; 0; 0]%Q.
Proof.
  apply (encode_label_not_member "sub" ["README"; "cat"; "dog"]).
  rewrite !not_elem_of_cons. split_and!; [discriminate..|apply not_elem_of_nil].
Defined.

Lemma decode_by_ext_fallback_witness :
  @decode_by_ext codecs_reference "bmp" [x01] = @decode_png codecs_reference [x01] 3.
Proof. apply (decode_by_ext_fallback (H:=codecs_reference)); discriminate. Defined.

End DecodeImage.
