(* ===== verification/ProcessImage.v ===== *)
(** * [process_image], [aug_fn] and [aug_process] of [src/utils/dataset.py]
    (lines 29-45)

    [process_image] resizes the decoded image to the target size
    ([tf.image.resize]), passes it through [aug_process] (a
    [tf.numpy_function] around [aug_fn], which calls the external
    [train_transforms] only in training mode) and divides by [255.].
    The theorems: in evaluation mode every pixel of the result lies in
    [[0, 1]] and the result does not depend on the augmentation at all; in
    training mode the bound holds when the augmentation keeps values in
    [[0, 255]]; the shape is the target size with three channels. *)

From S2P Require Import Prelude Image.
Import Image.
From Stdlib Require Import QArith Lqa.
#[local] Close Scope Q_scope.

Module ProcessImage.

Section WithOps.
Context `{Resize} `{Augment}.

(** [aug_fn(image, is_training)]. *)
Definition aug_fn (image : Image.image Q) (is_training : bool) : Image.image Q :=
  if is_training then train_transforms image else image.

(** [aug_process(image, is_training)]: [aug_fn] run through
    [tf.numpy_function] with a [float32] result; on the values of the
    model the conversion is the identity. *)
Definition aug_process (image : Image.image Q) (is_training : bool) : Image.image Q :=
  aug_fn image is_training.

(** [process_image(image, label_encoded, target_size, is_training)]. *)
Definition process_image (image : Image.image Z) (label_encoded : list Q)
    (target_size : nat * nat) (is_training : bool) : Image.image Q * list Q :=
  let img := tf_image_resize image target_size in
  let img := aug_process img is_training in
  let img := img_map (λ v, v / 255)%Q img in
  (img, label_encoded).

End WithOps.

(** A normalised pixel: a value in [[0, 1]]. *)
Definition unit_range (q : Q) : Prop := (0 <= q <= 1)%Q.

(** A pixel value in [[0, 255]] as a [float32]. *)
Definition byte_range (q : Q) : Prop := (0 <= q <= 255)%Q.

(** ** Lemmas *)

Lemma div255_unit_range q : byte_range q → unit_range (q / 255)%Q.
Proof.
  intros [H1 H2]. split.
  - apply Qle_shift_div_l; [reflexivity|]. lra.
  - apply Qle_shift_div_r; [reflexivity|]. lra.
Qed.

Lemma normalise_unit_range (img : image Q) :
  img_forall byte_range img → img_forall unit_range (img_map (λ v, v / 255)%Q img).
Proof.
  intros Hb. apply img_forall_map. eapply img_forall_impl; [|exact Hb].
  apply div255_unit_range.
Qed.

Lemma resize_byte_range `{ResizeLaws} (img : image Z) size :
  img_forall is_uint8 img → img_forall byte_range (tf_image_resize img size).
Proof.
  intros Hu. eapply img_forall_impl; [|apply (resize_range img 0 255 size), Hu].
  intros q Hq. exact Hq.
Qed.

Section WithLaws.
Context `{ResizeLaws} `{Augment}.

(** In evaluation mode every pixel of a processed image lies in
    [[0, 1]], whatever the augmentation is, for any [uint8] decoded image
    and any target size. *)
Lemma process_image_eval_range (image : Image.image Z) label size :
  img_forall is_uint8 image → img_forall unit_range (process_image image label size false).1.
Proof.
  intros Hu. simpl. apply normalise_unit_range. by apply resize_byte_range.
Qed.

(** C17: in training mode the bound holds when the external augmentation
    keeps pixel values in [[0, 255]]. *)
Theorem process_image_train_range (image : Image.image Z) label size :
  (∀ img, img_forall byte_range img → img_forall byte_range (train_transforms img)) →
  img_forall is_uint8 image → img_forall unit_range (process_image image label size true).1.
Proof.
  intros Haug Hu. simpl. apply normalise_unit_range, Haug. by apply resize_byte_range.
Qed.

(** C18: in evaluation mode the processed image keeps the label and has
    the target height and width with the channels of the decoded image. *)
Theorem process_image_eval_shape (image : Image.image Z) label h w c th tw :
  h ≠ 0 → w ≠ 0 → has_shape h w c image →
  has_shape th tw c (process_image image label (th, tw) false).1 ∧
  (process_image image label (th, tw) false).2 = label.
Proof.
  intros Hh Hw Hs. split; [|done]. simpl.
  apply has_shape_map. by apply (resize_shape image h w c).
Qed.

End WithLaws.

(** ** Runs with the reference instances *)

Lemma process_image_train_range_witness :
  img_forall unit_range
    (@process_image resize_reference augment_identity [[[0; 128; 255]]]%Z [1%Q] (2, 2) true).1.
Proof.
  apply (@process_image_train_range resize_reference _ augment_identity).
  - intros img Hb. exact Hb.
  - unfold img_forall, is_uint8. repeat constructor; lia.
Defined.

Lemma process_image_eval_shape_witness :
  has_shape 4 4 3 (@process_image resize_reference augment_identity
                     [[[0; 1; 2]; [3; 4; 5]]]%Z [1%Q] (4, 4) false).1 ∧
  (@process_image resize_reference augment_identity [[[0; 1; 2]; [3; 4; 5]]]%Z [1%Q] (4, 4) false).2
  = [1%Q].
Proof.
  apply (@process_image_eval_shape resize_reference _ augment_identity _ _ 1 2 3); [lia|lia|].
  split; [reflexivity|repeat constructor].
Defined.

End ProcessImage.
