(* ===== verification/TfData.v ===== *)
(** * The [tf.data] operations the program composes

    A [tf.data.Dataset] is lazy: building it reads nothing, and the
    elements are computed when it is iterated.  A dataset is therefore a
    function from the file system at iteration time to the sequence of
    elements it yields, each element a value or the exception that
    [next()] raises at that position ([dataset]).  The operations are
    [from_tensor_slices], [map] (whose output order is the input order,
    TensorFlow's default [deterministic] behaviour, whatever
    [num_parallel_calls] is), [batch] (which drops the partial batch when
    an element raises), [cache] (which replays its store once one
    iteration has filled it), [prefetch] and iteration by a Python [for] loop ([iterate],
    which stops at the first exception).  [chunks] is the specification of
    batching, defined by well-founded recursion; [batch_results] is shown
    to refine it. *)

From S2P Require Import Prelude FileSystem.
Import FileSystem.
From Equations Require Import Equations.

Module TfData.

Definition dataset (A : Type) : Type := node → list (result A).

(** [tf.data.experimental.AUTOTUNE]. *)
Definition AUTOTUNE : Z := -1.

(** [tf.data.Dataset.from_tensor_slices(xs)]. *)
Definition from_tensor_slices {A} (xs : list A) : dataset A := λ _, Ok <$> xs.

(** [ds.map(f, num_parallel_calls)]: [f] runs on each element when it is
    reached; an element that already raised stays raised. *)
Definition ds_map {A B} (f : node → A → result B) (num_parallel_calls : Z) (d : dataset A)
    : dataset B :=
  λ fs, (λ r, r ≫= f fs) <$> d fs.

(** The batching loop: [acc] holds the elements of the batch being
    filled; an exception is passed on and the partial batch is lost. *)
Fixpoint batch_go {A} (n : nat) (acc : list A) (rs : list (result A)) : list (result (list A)) :=
  match rs with
  | [] => match acc with [] => [] | _ => [Ok acc] end
  | Err e :: rs' => Err e :: batch_go n [] rs'
  | Ok a :: rs' =>
      if decide (length (acc ++ [a]) = n) then Ok (acc ++ [a]) :: batch_go n [] rs'
      else batch_go n (acc ++ [a]) rs'
  end.

Definition batch_results {A} (n : nat) (rs : list (result A)) : list (result (list A)) :=
  batch_go n [] rs.

(** [ds.batch(batch_size)]: refused when the size is not positive. *)
Definition ds_batch {A} (batch_size : nat) (d : dataset A) : result (dataset (list A)) :=
  if decide (batch_size = 0) then Err (InvalidArgumentError "batch_size must be greater than zero")
  else Ok (λ fs, batch_results batch_size (d fs)).

(** [ds.prefetch(buffer_size)]: elements are computed ahead of the
    consumer, which sees the same sequence. *)
Definition ds_prefetch {A} (buffer_size : Z) (d : dataset A) : dataset A := d.

(** [ds.cache()]: the elements of the first complete iteration are kept in
    [store]; while [store] is empty the elements are those of [d]. *)
Definition ds_cache {A} (store : option (list A)) (d : dataset A) : dataset A :=
  λ fs, match store with Some xs => Ok <$> xs | None => d fs end.

(** A [for] loop over the elements: the values before the first
    exception, and that exception. *)
Fixpoint iterate {A} (rs : list (result A)) : list A * option PyExc :=
  match rs with
  | [] => ([], None)
  | Ok a :: rs' => let '(xs, e) := iterate rs' in (a :: xs, e)
  | Err e :: _ => ([], Some e)
  end.

(** The specification of batching: consecutive slices of [n] elements,
    the last one shorter. *)
Equations chunks {A} (n : nat) (xs : list A) : list (list A) by wf (length xs) lt :=
  chunks 0 _ := [];
  chunks (S m) [] := [];
  chunks (S m) (x :: xs) := take (S m) (x :: xs) :: chunks (S m) (drop (S m) (x :: xs)).
Next Obligation. rewrite length_drop. simpl. lia. Qed.

(** ** Lemmas on the pipeline *)

Lemma ds_map_from_tensor_slices {A B} (f : node → A → result B) npc (xs : list A) fs :
  ds_map f npc (from_tensor_slices xs) fs = f fs <$> xs.
Proof. unfold ds_map, from_tensor_slices. rewrite <-list_fmap_compose. done. Qed.

Lemma ds_map_elem {A B} (f : node → A → result B) npc (d : dataset A) fs b :
  Ok b ∈ ds_map f npc d fs → ∃ a, Ok a ∈ d fs ∧ f fs a = Ok b.
Proof.
  unfold ds_map. intros (r & Hr & Hin)%list_elem_of_fmap.
  destruct r as [a|e]; [|done]. by exists a.
Qed.

Lemma iterate_elem {A} (rs : list (result A)) a : a ∈ (iterate rs).1 → Ok a ∈ rs.
Proof.
  induction rs as [|[b|e] rs IH]; cbn [iterate]; [by intros ?%elem_of_nil| |by intros ?%elem_of_nil].
  destruct (iterate rs) as [xs e] eqn:E. cbn [fst] in *.
  intros [->|?]%elem_of_cons; [left|right; auto].
Qed.

(** Every batch the loop yields holds between [1] and [n] elements, each
    satisfying what every element of the input satisfies. *)
Lemma batch_go_elem {A} (P : A → Prop) n acc rs b :
  n ≠ 0 → length acc < n → Forall P acc → (∀ a, Ok a ∈ rs → P a) →
  Ok b ∈ batch_go n acc rs → 0 < length b ≤ n ∧ Forall P b.
Proof.
  revert acc. induction rs as [|[a|e] rs IH]; intros acc Hn Hacc HP Hrs; cbn [batch_go].
  - intros Hb. apply list_elem_of_In in Hb.
    destruct acc as [|x acc]; simpl in Hb; try done;
      destruct Hb as [Hb|[]]; injection Hb as <-; split; simpl in *; first [lia|done].
  - assert (Hacc' : Forall P (acc ++ [a])) by (apply Forall_app; split; [done|constructor; [apply Hrs; left|done]]).
    case_decide as Hfull.
    + intros [->%(inj Ok)|Hb]%elem_of_cons; [split; [rewrite Hfull; lia|done]|].
      apply (IH []); [done|simpl; lia|done|intros x Hx; apply Hrs; by right|done].
    + rewrite length_app in Hfull. simpl in Hfull.
      apply IH; [done|rewrite length_app; simpl; lia|done|intros x Hx; apply Hrs; by right].
  - intros [[=]|Hb]%elem_of_cons.
    apply (IH []); [done|simpl; lia|done|intros x Hx; apply Hrs; by right|done].
Qed.

(** ** Lemmas on [chunks] *)

Lemma chunks_nonempty {A} m (l : list A) :
  l ≠ [] → chunks (S m) l = take (S m) l :: chunks (S m) (drop (S m) l).
Proof. destruct l; [done|]. intros _. by simp chunks. Qed.

Lemma chunks_full {A} n (l k : list A) :
  length l = n → n ≠ 0 → chunks n (l ++ k) = l :: chunks n k.
Proof.
  intros Hl Hn. destruct n as [|m]; [done|].
  rewrite chunks_nonempty by (destruct l; simpl in *; [lia|done]).
  rewrite <-Hl, take_app_length, drop_app_length. done.
Qed.

Lemma chunks_short {A} n (l : list A) :
  length l < n → l ≠ [] → chunks n l = [l].
Proof.
  intros Hl Hne. destruct n as [|m]; [lia|]. rewrite chunks_nonempty by done.
  rewrite take_ge, drop_ge by lia. by simp chunks.
Qed.

Lemma chunks_concat {A} n (xs : list A) : n ≠ 0 → concat (chunks n xs) = xs.
Proof.
  funelim (chunks n xs); simp chunks; [done|done|]. intros _. cbn [concat].
  match goal with IH : _ → concat (chunks _ _) = _ |- _ => rewrite IH by done end.
  apply take_drop.
Qed.

Lemma chunks_bounds {A} n (xs : list A) :
  Forall (λ c, 0 < length c ≤ n) (chunks n xs).
Proof.
  funelim (chunks n xs); simp chunks; constructor; [|done].
  simpl. rewrite length_take. lia.
Qed.

Lemma chunks_full_but_last {A} n (xs : list A) i c :
  chunks n xs !! i = Some c → S i < length (chunks n xs) → length c = n.
Proof.
  revert i c. funelim (chunks n xs); simp chunks; intros i c; [done|done|].
  destruct i as [|i].
  - intros [= <-] Hlen. simpl. rewrite length_take.
    destruct (decide (S m ≤ length (x :: xs))) as [Hs|Hs]; [simpl in Hs; lia|]. exfalso.
    rewrite (drop_ge (x :: xs)) in Hlen by lia. simp chunks in Hlen. cbn [length] in Hlen. lia.
  - intros Hi Hlen.
    match goal with IH : ∀ i c, _ → _ → length c = S m |- _ => apply (IH i) end;
      [exact Hi|cbn [length] in Hlen; lia].
Qed.

(** ** The batching loop implements [chunks] *)

Lemma batch_go_chunks {A} n (acc xs : list A) :
  n ≠ 0 → length acc < n → batch_go n acc (Ok <$> xs) = Ok <$> chunks n (acc ++ xs).
Proof.
  intros Hn. revert acc. induction xs as [|a xs IH]; intros acc Hacc.
  - rewrite app_nil_r. simpl. destruct acc as [|b acc]; [by destruct n; simp chunks|].
    by rewrite chunks_short by done.
  - rewrite fmap_cons. cbn [batch_go].
    replace (acc ++ a :: xs) with ((acc ++ [a]) ++ xs) by (by rewrite <-app_assoc).
    case_decide as Hfull.
    + rewrite IH by (simpl; lia). rewrite (chunks_full n (acc ++ [a]) xs) by done.
      by rewrite fmap_cons.
    + rewrite length_app in Hfull. simpl in Hfull. apply IH. rewrite length_app. simpl. lia.
Qed.

(** C12: on a sequence without exceptions, [batch] yields exactly the
    specification [chunks]: the loop that fills one batch at a time
    refines the slicing. *)
Theorem batch_results_refines {A} n (xs : list A) :
  n ≠ 0 → batch_results n (Ok <$> xs) = Ok <$> chunks n xs.
Proof. intros Hn. apply (batch_go_chunks n [] xs); [done|simpl; lia]. Qed.


(** C26: without exceptions, [batch] loses and reorders nothing: the
    batches concatenate to the input, each holds between [1] and [n]
    elements, and every batch but the last holds exactly [n]. *)
Theorem batch_results_complete {A} n (xs : list A) :
  n ≠ 0 → ∃ bs, batch_results n (Ok <$> xs) = Ok <$> bs ∧ concat bs = xs ∧
    Forall (λ b, 0 < length b ≤ n) bs ∧
    ∀ i b, bs !! i = Some b → S i < length bs → length b = n.
Proof.
  intros Hn. exists (chunks n xs). split_and!.
  - by apply batch_go_chunks; [|simpl; lia].
  - by apply chunks_concat.
  - apply chunks_bounds.
  - apply chunks_full_but_last.
Qed.

Lemma batch_go_error {A} n (acc xs : list A) e rest :
  n ≠ 0 → length acc < n →
  iterate (batch_go n acc ((Ok <$> xs) ++ Err e :: rest)) =
  (chunks n (take (n * ((length acc + length xs) / n)) (acc ++ xs)), Some e).
Proof.
  intros Hn. revert acc. induction xs as [|a xs IH]; intros acc Hacc.
  - simpl. rewrite Nat.add_0_r, Nat.div_small, Nat.mul_0_r by done.
    by destruct n; simp chunks.
  - rewrite fmap_cons, <-app_comm_cons. cbn [batch_go].
    replace (acc ++ a :: xs) with ((acc ++ [a]) ++ xs) by (by rewrite <-app_assoc).
    replace (length acc + length (a :: xs)) with (length (acc ++ [a]) + length xs)
      by (rewrite length_app; simpl; lia).
    case_decide as Hfull.
    + cbn [iterate]. rewrite (IH []) by (simpl; lia). cbn [length app]. rewrite Hfull.
      replace ((n + length xs) / n) with (1 + length xs / n)
        by (rewrite <-Nat.div_add_l by done; f_equal; lia).
      rewrite Nat.mul_add_distr_l, Nat.mul_1_r.
      rewrite (take_app_add' (acc ++ [a]) xs n) by done.
      by rewrite (chunks_full n (acc ++ [a])) by done.
    + apply IH. rewrite length_app in Hfull |- *. simpl in *. lia.
Qed.

(** ** Counting the batches *)

(** A sequence of results is its longest prefix of values followed by
    nothing or by the first exception. *)
Lemma results_prefix {A} (rs : list (result A)) :
  ∃ xs tail, rs = (Ok <$> xs) ++ tail ∧ (tail = [] ∨ ∃ e rest, tail = Err e :: rest).
Proof.
  induction rs as [|[a|e] rs (xs & tail & -> & Ht)].
  - exists [], []. auto.
  - by exists (a :: xs), tail.
  - exists [], (Err e :: (Ok <$> xs) ++ tail). eauto.
Qed.

Lemma iterate_Ok {A} (xs : list A) : iterate (Ok <$> xs) = (xs, None).
Proof. induction xs as [|x xs IH]; [done|]. rewrite fmap_cons. cbn [iterate]. by rewrite IH. Qed.

(** [chunks n xs] has [⌈length xs / n⌉] slices. *)
Lemma chunks_length {A} n (xs : list A) :
  n ≠ 0 → length (chunks n xs) = (length xs + n - 1) / n.
Proof.
  funelim (chunks n xs); simp chunks; intros Hn; [done|cbn [length]; rewrite Nat.div_small; lia|].
  cbn [length]. match goal with IH : _ → length (chunks _ _) = _ |- _ => rewrite IH by done end.
  rewrite length_drop. cbn [length].
  destruct (decide (S (length xs) ≤ S m)) as [Hle|Hgt].
  - replace (S (length xs) - S m) with 0 by lia. rewrite Nat.div_small by lia.
    apply (Nat.div_unique _ _ _ (length xs)); lia.
  - replace (S (length xs) + S m - 1) with (1 * S m + (S (length xs) - S m + S m - 1)) by lia.
    rewrite Nat.div_add_l by done. lia.
Qed.

(** A [for] loop over a batched sequence of [k] elements receives at most
    [⌈k / n⌉] batches, whether or not an element raises. *)
Lemma iterate_batch_length {A} n (rs : list (result A)) :
  n ≠ 0 → length (iterate (batch_results n rs)).1 ≤ (length rs + n - 1) / n.
Proof.
  intros Hn. destruct (results_prefix rs) as (xs & tail & -> & [->|(e & rest & ->)]).
  - rewrite app_nil_r. unfold batch_results.
    rewrite (batch_go_chunks n [] xs), iterate_Ok by (done || simpl; lia).
    cbn [fst app]. rewrite chunks_length by done. by autorewrite with len.
  - unfold batch_results. rewrite (batch_go_error n [] xs e rest) by (done || simpl; lia).
    cbn [fst length app]. rewrite Nat.add_0_l, chunks_length by done.
    autorewrite with len. cbn [length].
    rewrite Nat.min_l by apply Nat.Div0.mul_div_le.
    transitivity (length xs / n).
    + replace (n * (length xs / n) + n - 1) with (length xs / n * n + (n - 1)) by lia.
      rewrite Nat.div_add_l, (Nat.div_small (n - 1) n) by lia. lia.
    + apply Nat.le_trans with ((length xs + n - 1) / n); apply Nat.div_le_mono; lia.
Qed.

(** C13: when the element at position [k] raises, a [for] loop over the
    batched dataset receives the [k / n] full batches before it, then the
    exception: the [k mod n] elements of the partial batch are lost. *)
Theorem batch_results_error {A} n (xs : list A) e rest :
  n ≠ 0 →
  iterate (batch_results n ((Ok <$> xs) ++ Err e :: rest)) =
  (chunks n (take (n * (length xs / n)) xs), Some e).
Proof. intros Hn. apply (batch_go_error n [] xs e rest); [done|simpl; lia]. Qed.

(** ** Runs *)

Lemma batch_results_refines_witness :
  batch_results 2 (Ok <$> [1; 2; 3; 4; 5]) = Ok <$> chunks 2 [1; 2; 3; 4; 5] ∧
  chunks 2 [1; 2; 3; 4; 5] = [[1; 2]; [3; 4]; [5]].
Proof. split; [apply (batch_results_refines 2 [1; 2; 3; 4; 5]); lia|reflexivity]. Defined.

Lemma batch_results_complete_witness :
  ∃ bs, batch_results 128 (Ok <$> seq 0 300) = Ok <$> bs ∧ concat bs = seq 0 300 ∧
    Forall (λ b, 0 < length b ≤ 128) bs ∧
    ∀ i b, bs !! i = Some b → S i < length bs → length b = 128.
Proof. apply (batch_results_complete 128 (seq 0 300)). lia. Defined.

Lemma batch_results_error_witness :
  iterate (batch_results 2 ((Ok <$> [1; 2; 3]) ++ Err IndexError :: [Ok 4])) =
  (chunks 2 (take (2 * (length [1; 2; 3] / 2)) [1; 2; 3]), Some IndexError) ∧
  chunks 2 (take (2 * (length [1; 2; 3] / 2)) [1; 2; 3]) = [[1; 2]].
Proof. split; [apply (batch_results_error 2 [1; 2; 3] IndexError [Ok 4]); lia|reflexivity]. Defined.

End TfData.
