(* ===== verification/Dataset.v ===== *)
(** * Class [Dataset] of [src/utils/dataset.py] (lines 48-87)

    [Dataset.__init__] seeds TensorFlow's global generator when
    [random_seed > 0] ([tf.random.set_seed], a global side effect kept
    here as the state [tf_random_state]), lists and sorts the labels,
    calls [read_files] (glob, then [tf.random.shuffle] or
    [tf.convert_to_tensor]) and [map_files] (the decode pipeline and the
    process pipeline).  The file list becomes a tensor: a list of strings,
    or for an empty list an empty [float32] tensor ([files_tensor]), on
    which [Dataset.map] cannot trace [decode_image].  [tf.random.shuffle]
    is the class [TfShuffle], whose law is that it permutes. *)

From S2P Require Import Prelude PyStr FileSystem Image DecodeImage ProcessImage TfData.
Import PyStr FileSystem Image DecodeImage ProcessImage TfData.
From Stdlib Require Import QArith.
#[local] Close Scope Q_scope.

Module Dataset.

Local Open Scope string_scope.

(** TensorFlow's global random state: the seed of [tf.random.set_seed]
    and the number of random operations created since (the operation seed
    of [tf.random.shuffle] is derived from both). *)
Record tf_random_state : Type := {
  tf_global_seed : option Z;
  tf_op_count : nat;
}.

(** [tf.random.set_seed(seed)]: a new global seed, and the sequence of
    operation seeds restarts. *)
Definition tf_set_seed (seed : Z) (st : tf_random_state) : tf_random_state :=
  {| tf_global_seed := Some seed; tf_op_count := 0 |}.

(** [tf.random.shuffle] with the global seed, the operation count and the
    values. *)
Class TfShuffle : Type := {
  tf_random_shuffle : option Z → nat → list string → list string;
}.

Class TfShuffleLaws `{TfShuffle} : Prop := {
  tf_random_shuffle_perm : ∀ g k xs, tf_random_shuffle g k xs ≡ₚ xs;
}.

(** The tensor [tf.convert_to_tensor] makes of a list of file names: an
    empty Python list becomes an empty [float32] tensor. *)
Inductive files_tensor : Type :=
| StringTensor (xs : list string)
| EmptyFloat32Tensor.

Definition convert_to_tensor (xs : list string) : files_tensor :=
  match xs with [] => EmptyFloat32Tensor | _ => StringTensor xs end.

(** The attributes of a constructed [Dataset] object. *)
Record Dataset : Type := {
  path : string;
  extension_type : string;
  num_parallel_calls : Z;
  random_seed : Z;
  is_training : bool;
  target_shape : nat * nat;
  shuffle : bool;
  labels : list string;
  ds : dataset (Image.image Q * list Q);
  decode_ds : dataset (Image.image Z * list Q);
}.

Section WithOps.
Context `{TfShuffle} `{ImageCodecs} `{Resize} `{Augment}.

(** [tf.random.shuffle(files)]: converts the list, shuffles it with the
    current operation seed, and counts one more random operation. *)
Definition tf_shuffle_op (xs : list string) : pystate tf_random_state files_tensor :=
  λ st, ({| tf_global_seed := tf_global_seed st; tf_op_count := S (tf_op_count st) |},
         Ok (match convert_to_tensor xs with
             | StringTensor ys => StringTensor (tf_random_shuffle (tf_global_seed st) (tf_op_count st) ys)
             | EmptyFloat32Tensor => EmptyFloat32Tensor
             end)).

(** [Dataset.read_files]: the tensor [from_tensor_slices] is applied to. *)
Definition read_files (fs : node) (path extension_type : string) (shuffle : bool)
    : pystate tf_random_state files_tensor :=
  let files := glob fs (os_path_join path ("**/*." +:+ extension_type)) in
  if shuffle then tf_shuffle_op files else mret (convert_to_tensor files).

(** [Dataset.map_files]: the decode pipeline (returned) and the process
    pipeline (stored in [self.ds]).  [Dataset.map] traces the function on
    the element type at construction: on [float32] elements,
    [tf.io.read_file] refuses its argument. *)
Definition map_files (files : files_tensor) (labels : list string) (num_parallel_calls : Z)
    (target_shape : nat * nat) (is_training : bool)
    : result (dataset (Image.image Z * list Q) * dataset (Image.image Q * list Q)) :=
  match files with
  | EmptyFloat32Tensor =>
      Err (TypeError "Input 'filename' of 'ReadFile' Op has type float32 that does not match expected type of string")
  | StringTensor xs =>
      let decode_ds := ds_map (λ fs p, decode_image fs p labels) num_parallel_calls
                              (from_tensor_slices xs) in
      let ds := ds_map (λ _ e, Ok (process_image e.1 e.2 target_shape is_training))
                       num_parallel_calls decode_ds in
      Ok (decode_ds, ds)
  end.

(** [Dataset.__init__]. *)
Definition Dataset___init__ (fs : node) (path extension_type : string)
    (num_parallel_calls random_seed : Z) (is_training : bool) (target_shape : nat * nat)
    : pystate tf_random_state Dataset :=
  shuffle ← (if decide (0 < random_seed)%Z
             then ps_modify (tf_set_seed random_seed) ;; mret true
             else mret false);
  names ← ps_lift (listdir fs path);
  let labels := py_sorted names in
  files ← read_files fs path extension_type shuffle;
  dss ← ps_lift (map_files files labels num_parallel_calls target_shape is_training);
  mret {| path := path; extension_type := extension_type;
          num_parallel_calls := num_parallel_calls; random_seed := random_seed;
          is_training := is_training; target_shape := target_shape; shuffle := shuffle;
          labels := labels; ds := dss.2; decode_ds := dss.1 |}.

End WithOps.

(** [Dataset.get_ds] and [Dataset.get_decode_ds]. *)
Definition get_ds (d : Dataset) : dataset (Image.image Q * list Q) := ds d.
Definition get_decode_ds (d : Dataset) : dataset (Image.image Z * list Q) := decode_ds d.

(** ** Lemmas *)

Section Lemmas.
Context `{TfShuffle} `{ImageCodecs} `{Resize} `{Augment}.

(** What a successful construction did. *)
Lemma Dataset_init_Ok fs path ext npc seed tr tgt st st' d :
  Dataset___init__ fs path ext npc seed tr tgt st = (st', Ok d) →
  ∃ names files,
    listdir fs path = Ok names ∧ labels d = py_sorted names ∧
    read_files fs path ext (bool_decide (0 < seed)%Z)
      (if decide (0 < seed)%Z then tf_set_seed seed st else st) = (st', Ok (StringTensor files)) ∧
    decode_ds d = ds_map (λ fs p, decode_image fs p (labels d)) npc (from_tensor_slices files) ∧
    ds d = ds_map (λ _ e, Ok (process_image e.1 e.2 tgt tr)) npc (decode_ds d) ∧
    shuffle d = bool_decide (0 < seed)%Z ∧ is_training d = tr ∧ target_shape d = tgt.
Proof.
  unfold Dataset___init__. intros Hd. inv_pystate.
  destruct a1 as [files|]; [|discriminate Ha2]. injection Ha2 as <-.
  exists a0, files.
  destruct (decide (0 < seed)%Z) as [Hs|Hs]; cbn in Ha; injection Ha as <- <-;
    [rewrite (bool_decide_true _ Hs)|rewrite (bool_decide_false _ Hs)]; split_and!; done.
Qed.

(** [read_files] lists the globbed files, shuffled or in glob order. *)
Lemma read_files_Ok `{!TfShuffleLaws} fs path ext sh st st' files :
  read_files fs path ext sh st = (st', Ok (StringTensor files)) →
  files ≡ₚ glob fs (dataset_pattern path ext) ∧
  (sh = false → files = glob fs (dataset_pattern path ext)).
Proof.
  unfold read_files, dataset_pattern.
  destruct (glob fs _) as [|f fs'] eqn:Eg; destruct sh; cbn; try discriminate.
  - intros [= _ <-]. split; [apply tf_random_shuffle_perm|done].
  - intros [= _ <-]. done.
Qed.

(** The elements of the decode pipeline come from the files of the list. *)
Lemma decode_ds_elem `{!TfShuffleLaws} fs path ext npc seed tr tgt st st' d fs' x :
  Dataset___init__ fs path ext npc seed tr tgt st = (st', Ok d) →
  Ok x ∈ get_decode_ds d fs' →
  ∃ p, p ∈ glob fs (dataset_pattern path ext) ∧ decode_image fs' p (labels d) = Ok x.
Proof.
  intros (names & files & _ & _ & Hrf & Hdec & _)%Dataset_init_Ok Hx.
  unfold get_decode_ds in Hx. rewrite Hdec, ds_map_from_tensor_slices in Hx.
  apply list_elem_of_fmap in Hx as (p & Hp & Hin). exists p. split; [|done].
  destruct (read_files_Ok _ _ _ _ _ _ _ Hrf) as [Hperm _]. by rewrite <-Hperm.
Qed.

(** The elements of the processed pipeline are the processed decoded
    images of the files. *)
Lemma get_ds_elem fs path ext npc seed tr tgt st st' d fs' img v :
  Dataset___init__ fs path ext npc seed tr tgt st = (st', Ok d) →
  Ok (img, v) ∈ get_ds d fs' →
  ∃ p img0, decode_image fs' p (labels d) = Ok (img0, v) ∧ img = (process_image img0 v tgt tr).1.
Proof.
  intros Hd Hin.
  destruct (Dataset_init_Ok _ _ _ _ _ _ _ _ _ _ Hd) as (names & files & _ & _ & _ & Hdd & Hds & _).
  unfold get_ds in Hin. rewrite Hds in Hin.
  apply ds_map_elem in Hin as ([img0 v0] & Hin & Hp). injection Hp as <- <-.
  rewrite Hdd in Hin. apply ds_map_elem in Hin as (p & _ & Hdec). by exists p, img0.
Qed.

(** The processed pipeline maps decoding and processing over a
    permutation of the globbed files. *)
Lemma get_ds_files `{!TfShuffleLaws} fs path ext npc seed tr tgt st st' d :
  Dataset___init__ fs path ext npc seed tr tgt st = (st', Ok d) →
  ∃ files, files ≡ₚ glob fs (dataset_pattern path ext) ∧
    ∀ fs', get_ds d fs' =
      (λ p, decode_image fs' p (labels d) ≫= λ e, Ok (process_image e.1 e.2 tgt tr)) <$> files.
Proof.
  intros (names & files & _ & _ & Hrf & Hdd & Hds & _)%Dataset_init_Ok.
  exists files. split; [apply (read_files_Ok _ _ _ _ _ _ _ Hrf)|].
  intros fs'. unfold get_ds. rewrite Hds, Hdd. unfold ds_map, from_tensor_slices.
  by rewrite <-!list_fmap_compose.
Qed.

End Lemmas.

(** ** Theorems *)

Section Theorems.
Context `{TfShuffleLaws} `{ImageCodecs} `{Resize} `{Augment}.

(** C1: every image the decode pipeline of a [Dataset] built on a
    well-formed root yields is labelled with a one-hot vector over the
    object's labels: [1] at one index, [0] at all others. *)
Theorem Dataset_decode_onehot fs path ext npc seed tr tgt st st' d es img v :
  wf_node fs = true → resolve_path fs path = Some (Dir es) →
  root_ok path = true → ext_ok ext = true →
  Dataset___init__ fs path ext npc seed tr tgt st = (st', Ok d) →
  Ok (img, v) ∈ get_decode_ds d fs →
  ∃ i c, labels d !! i = Some c ∧ length v = length (labels d) ∧
    ∀ j, j < length (labels d) → v !! j = Some (if decide (j = i) then 1%Q else 0%Q).
Proof.
  intros Hwf Hres Hroot Hext Hd Hin.
  destruct (decode_ds_elem _ _ _ _ _ _ _ _ _ _ _ _ Hd Hin) as (p & Hp & Hdec).
  destruct (Dataset_init_Ok _ _ _ _ _ _ _ _ _ _ Hd) as (names & _ & Hls & Hlab & _).
  rewrite (listdir_Dir fs path es Hres) in Hls. injection Hls as <-.
  rewrite Hlab in Hdec |- *.
  destruct (decode_image_onehot fs path ext es p img v) as (i & c & f & Hi & _ & Hlen & Hall);
    [done..|].
  assert (Hl : length (py_sorted (fst <$> es)) = length es).
  { by rewrite py_sorted_perm, length_fmap. }
  exists i, c. rewrite Hl. by split_and!.
Qed.

(** C15: the global random state a successful construction leaves: with
    [random_seed > 0] the global seed is [random_seed] and exactly one
    random operation (the shuffle) has been created since; otherwise the
    state is unchanged. *)
Theorem Dataset_init_random_state fs path ext npc seed tr tgt st st' d :
  Dataset___init__ fs path ext npc seed tr tgt st = (st', Ok d) →
  st' = if decide (0 < seed)%Z then {| tf_global_seed := Some seed; tf_op_count := 1 |} else st.
Proof.
  intros (names & files & _ & _ & Hrf & _)%Dataset_init_Ok. revert Hrf.
  unfold read_files. destruct (glob fs _) as [|f fs'];
    destruct (decide (0 < seed)%Z) as [Hs|Hs];
    [rewrite bool_decide_true by done|rewrite bool_decide_false by done
    |rewrite bool_decide_true by done|rewrite bool_decide_false by done];
    cbn; by intros [= <- _].
Qed.

(** C4: the decode pipeline reads the files [glob] lists, each once: in
    glob order when [random_seed <= 0], in a shuffled order otherwise. *)
Theorem Dataset_files_order fs path ext npc seed tr tgt st st' d :
  Dataset___init__ fs path ext npc seed tr tgt st = (st', Ok d) →
  ∃ files, (∀ fs', get_decode_ds d fs' = (λ p, decode_image fs' p (labels d)) <$> files) ∧
    files ≡ₚ glob fs (dataset_pattern path ext) ∧
    ((seed <= 0)%Z → files = glob fs (dataset_pattern path ext)).
Proof.
  intros (names & files & _ & _ & Hrf & Hdec & _)%Dataset_init_Ok.
  destruct (read_files_Ok _ _ _ _ _ _ _ Hrf) as [Hperm Hord].
  exists files. split_and!; [|done|].
  - intros fs'. unfold get_decode_ds. by rewrite Hdec, ds_map_from_tensor_slices.
  - intros Hs. apply Hord. by apply bool_decide_eq_false_2; lia.
Qed.

(** C19: the labels are the sorted names of all the entries of the root,
    the plain files among them included. *)
Theorem Dataset_labels_all_entries fs path ext npc seed tr tgt st st' d es :
  resolve_path fs path = Some (Dir es) →
  Dataset___init__ fs path ext npc seed tr tgt st = (st', Ok d) →
  labels d = py_sorted (fst <$> es).
Proof.
  intros Hres (names & _ & Hls & Hlab & _)%Dataset_init_Ok.
  rewrite (listdir_Dir fs path es Hres) in Hls. by injection Hls as <-.
Qed.

(** C14: with [random_seed > 0] the construction does not depend on the
    global random state it starts from: two constructions with the same
    seed give the same object, file order included, and the same state. *)
Theorem Dataset_init_deterministic fs path ext npc seed tr tgt st1 st2 :
  (0 < seed)%Z →
  Dataset___init__ fs path ext npc seed tr tgt st1 = Dataset___init__ fs path ext npc seed tr tgt st2.
Proof.
  intros Hs. unfold Dataset___init__. cbn [mbind pystate_bind].
  rewrite decide_True by done. reflexivity.
Qed.

(** C21: a root that is not a directory raises [NotFoundError] at
    construction, after the global seed has been set. *)
Theorem Dataset_init_missing_root fs path ext npc seed tr tgt st :
  (∀ es, resolve_path fs path ≠ Some (Dir es)) →
  Dataset___init__ fs path ext npc seed tr tgt st =
  (if decide (0 < seed)%Z then tf_set_seed seed st else st, Err (NotFoundError path)).
Proof.
  intros Hres. unfold Dataset___init__, listdir.
  destruct (resolve_path fs path) as [[bs|es]|] eqn:E; [| by destruct (Hres es)|];
    cbn [mbind pystate_bind ps_lift]; by destruct (decide _).
Qed.

(** C20: when [glob] finds no file (an empty class directory set, or no
    file with the extension), the construction raises [TypeError]: the
    empty file list becomes a [float32] tensor that [decode_image] cannot
    read. *)
Theorem Dataset_init_no_files fs path ext npc seed tr tgt st names :
  listdir fs path = Ok names → glob fs (dataset_pattern path ext) = [] →
  ∃ st' msg, Dataset___init__ fs path ext npc seed tr tgt st = (st', Err (TypeError msg)).
Proof.
  intros Hls Hg. unfold Dataset___init__, read_files.
  unfold dataset_pattern in Hg.
  destruct (decide (0 < seed)%Z); cbn [mbind pystate_bind ps_lift ps_modify mret pystate_ret];
    rewrite Hls; cbn; rewrite Hg; cbn; eauto.
Qed.

End Theorems.

Section Augmentations.
Context `{TfShuffle} `{ImageCodecs} `{Resize}.

(** C16: a [Dataset] built for evaluation never calls the augmentation:
    with two different [train_transforms], the constructions are equal,
    pipelines included. *)
Theorem Dataset_eval_no_augmentation (aug1 aug2 : Augment) fs path ext npc seed tgt st :
  @Dataset___init__ _ _ _ aug1 fs path ext npc seed false tgt st =
  @Dataset___init__ _ _ _ aug2 fs path ext npc seed false tgt st.
Proof. reflexivity. Qed.

End Augmentations.

Section Bounds.
Context `{TfShuffle} `{ImageCodecsLaws} `{ResizeLaws} `{Augment}.

(** Every image the processed pipeline of an evaluation [Dataset]
    yields has all its pixel values in [[0, 1]], whatever file system it
    is iterated on. *)
Lemma Dataset_eval_range fs path ext npc seed tgt st st' d fs' img v :
  Dataset___init__ fs path ext npc seed false tgt st = (st', Ok d) →
  Ok (img, v) ∈ get_ds d fs' → img_forall unit_range img.
Proof.
  intros Hd Hin. destruct (get_ds_elem _ _ _ _ _ _ _ _ _ _ _ _ _ Hd Hin) as (p & img0 & Hdec & ->).
  destruct (decode_image_uint8 _ _ _ _ _ Hdec) as [Hu _].
  exact (process_image_eval_range img0 v tgt Hu).
Qed.

(** C8: the element type of the processed pipeline of an evaluation
    [Dataset]: every element is an image of the target height and width
    with three channels and values in [[0, 1]], with a label vector of
    the length of the label list. *)
Theorem Dataset_element_spec fs path ext npc seed th tw st st' d fs' img v :
  Dataset___init__ fs path ext npc seed false (th, tw) st = (st', Ok d) →
  Ok (img, v) ∈ get_ds d fs' →
  has_shape th tw 3 img ∧ img_forall unit_range img ∧ length v = length (labels d).
Proof.
  intros Hd Hin. destruct (get_ds_elem _ _ _ _ _ _ _ _ _ _ _ _ _ Hd Hin) as (p & img0 & Hdec & ->).
  destruct (decode_image_uint8 _ _ _ _ _ Hdec) as (Hu & (h & w & Hh & Hw & Hs) & Hv).
  split_and!; [|exact (process_image_eval_range img0 v (th, tw) Hu)|exact Hv].
  apply has_shape_map. by apply (resize_shape img0 h w 3).
Qed.

End Bounds.

(** A shuffle for the witnesses: a rotation by the seed and the count. *)
Definition rotate_shuffle (g : option Z) (k : nat) (xs : list string) : list string :=
  let n := (Z.to_nat (default 0%Z g) + k) `mod` (length xs) in
  drop n xs ++ take n xs.

Definition shuffle_reference : TfShuffle := {| tf_random_shuffle := rotate_shuffle |}.

(** The state of a fresh interpreter: no global seed, no random
    operation yet. *)
Definition tf_initial_state : tf_random_state := {| tf_global_seed := None; tf_op_count := 0 |}.

Lemma rotate_shuffle_perm g k xs : rotate_shuffle g k xs ≡ₚ xs.
Proof. unfold rotate_shuffle. by rewrite Permutation_app_comm, take_drop. Qed.

#[export] Instance shuffle_reference_laws : @TfShuffleLaws shuffle_reference.
Proof. constructor. apply rotate_shuffle_perm. Qed.


(** ** Runs on the example tree of [FileSystem]

    The constructor run with the reference instances on [example_fs],
    root [data/Test], extension [png], as [evaluation.py] calls it but for
    the target size. *)

Definition empty_dataset : Dataset := {| path := ""; extension_type := "";
  num_parallel_calls := 0; random_seed := 0; is_training := false; target_shape := (0, 0);
  shuffle := false; labels := []; ds := λ _, []; decode_ds := λ _, [] |}.

Definition example_run (seed : Z) (tgt : nat * nat) : tf_random_state * result Dataset :=
  @Dataset___init__ shuffle_reference codecs_reference resize_reference augment_identity
    example_fs "data/Test" "png" (-1) seed false tgt tf_initial_state.

Definition example_dataset (seed : Z) (tgt : nat * nat) : Dataset :=
  match (example_run seed tgt).2 with Ok d => d | Err _ => empty_dataset end.

Lemma Dataset_decode_onehot_witness :
  example_run 1 (224, 224) = ((example_run 1 (224, 224)).1, Ok (example_dataset 1 (224, 224))) ∧
  ∃ i c, labels (example_dataset 1 (224, 224)) !! i = Some c ∧
    length [0; 1; 0]%Q = length (labels (example_dataset 1 (224, 224))) ∧
    ∀ j, j < length (labels (example_dataset 1 (224, 224))) →
      [0; 1; 0]%Q !! j = Some (if decide (j = i) then 1%Q else 0%Q).
Proof.
  split; [reflexivity|].
  apply (@Dataset_decode_onehot shuffle_reference _ codecs_reference resize_reference
           augment_identity example_fs "data/Test" "png" (-1) 1 false (224, 224) tf_initial_state
           (example_run 1 (224, 224)).1 (example_dataset 1 (224, 224))
           example_root_entries [[[1; 1; 1]]]%Z); [reflexivity..|].
  vm_compute. left.
Defined.

Lemma Dataset_files_order_witness :
  example_run (-1) (2, 2) = ((example_run (-1) (2, 2)).1, Ok (example_dataset (-1) (2, 2))) ∧
  ∃ files, (∀ fs', get_decode_ds (example_dataset (-1) (2, 2)) fs' =
                   (λ p, @decode_image codecs_reference fs' p (labels (example_dataset (-1) (2, 2)))) <$> files) ∧
    files ≡ₚ glob example_fs (dataset_pattern "data/Test" "png") ∧
    ((-1 <= 0)%Z → files = glob example_fs (dataset_pattern "data/Test" "png")).
Proof.
  split; [reflexivity|].
  apply (@Dataset_files_order shuffle_reference _ codecs_reference resize_reference
           augment_identity example_fs "data/Test" "png" (-1) (-1) false (2, 2) tf_initial_state
           (example_run (-1) (2, 2)).1 (example_dataset (-1) (2, 2))).
  reflexivity.
Defined.

Lemma Dataset_labels_all_entries_witness :
  labels (example_dataset 1 (2, 2)) = py_sorted (fst <$> example_root_entries) ∧
  py_sorted (fst <$> example_root_entries) = ["README"; "cat"; "dog"].
Proof.
  split; [|reflexivity].
  apply (@Dataset_labels_all_entries shuffle_reference codecs_reference resize_reference
           augment_identity example_fs "data/Test" "png" (-1) 1 false (2, 2) tf_initial_state
           (example_run 1 (2, 2)).1); reflexivity.
Defined.

Lemma Dataset_init_deterministic_witness :
  example_run 1 (2, 2) =
  @Dataset___init__ shuffle_reference codecs_reference resize_reference augment_identity
    example_fs "data/Test" "png" (-1) 1 false (2, 2) {| tf_global_seed := Some 7%Z; tf_op_count := 3 |}.
Proof. apply (@Dataset_init_deterministic shuffle_reference codecs_reference resize_reference augment_identity). lia. Defined.

Lemma Dataset_init_missing_root_witness :
  @Dataset___init__ shuffle_reference codecs_reference resize_reference augment_identity
    example_fs "data/Train" "png" (-1) 5 false (2, 2) tf_initial_state =
  (tf_set_seed 5 tf_initial_state, Err (NotFoundError "data/Train")).
Proof.
  apply (@Dataset_init_missing_root shuffle_reference codecs_reference resize_reference augment_identity).
  intros es. vm_compute. discriminate.
Defined.

Lemma Dataset_init_no_files_witness :
  ∃ st' msg, @Dataset___init__ shuffle_reference codecs_reference resize_reference augment_identity
    example_fs "data/Test" "bmp" (-1) 1 false (2, 2) tf_initial_state = (st', Err (TypeError msg)).
Proof.
  apply (@Dataset_init_no_files shuffle_reference codecs_reference resize_reference augment_identity
           example_fs "data/Test" "bmp" (-1) 1 false (2, 2) tf_initial_state (fst <$> example_root_entries));
    reflexivity.
Defined.


Lemma Dataset_element_spec_witness :
  example_run 1 (2, 2) = ((example_run 1 (2, 2)).1, Ok (example_dataset 1 (2, 2))) ∧
  has_shape 2 2 3 (img_map (λ v, v / 255)%Q (nearest_resize [[[1; 1; 1]]]%Z (2, 2))) ∧
  img_forall unit_range (img_map (λ v, v / 255)%Q (nearest_resize [[[1; 1; 1]]]%Z (2, 2))) ∧
  length [0; 1; 0]%Q = length (labels (example_dataset 1 (2, 2))).
Proof.
  split; [reflexivity|].
  apply (@Dataset_element_spec shuffle_reference codecs_reference _ resize_reference _ augment_identity
           example_fs "data/Test" "png" (-1) 1 2 2 tf_initial_state
           (example_run 1 (2, 2)).1 (example_dataset 1 (2, 2)) example_fs _ [0; 1; 0]%Q);
    [reflexivity|].
  vm_compute. left.
Defined.

Lemma Dataset_init_random_state_witness :
  example_run 1 (2, 2) = ((example_run 1 (2, 2)).1, Ok (example_dataset 1 (2, 2))) ∧
  (example_run 1 (2, 2)).1 = {| tf_global_seed := Some 1%Z; tf_op_count := 1 |}.
Proof.
  split; [reflexivity|].
  apply (@Dataset_init_random_state shuffle_reference codecs_reference resize_reference
           augment_identity example_fs "data/Test" "png" (-1) 1 false (2, 2) tf_initial_state
           (example_run 1 (2, 2)).1 (example_dataset 1 (2, 2))).
  reflexivity.
Defined.

End Dataset.
