(* ===== verification/Evaluation.v ===== *)
(** * The evaluation script [src/evaluation.py]

    The script builds the test [Dataset] on [data/Test] with extension
    [png], [AUTOTUNE] parallelism, evaluation mode and the target size
    [input_shape[:2]] (the default [random_seed=1] applies, so the
    global seed is set and the file list is shuffled), takes its
    processed pipeline, caches, batches by [batch_size = 128] and
    prefetches it, and then loads the saved model.  The model loader
    [tf.keras.models.load_model] is the class [LoadModel].  The theorem:
    whatever files the pipeline meets when it is iterated, every batch a
    [for] loop receives holds between 1 and 128 images, each with all its
    pixel values in [[0, 1]]. *)

From S2P Require Import Prelude FileSystem Image DecodeImage ProcessImage TfData Dataset.
Import FileSystem Image DecodeImage ProcessImage TfData Dataset.
From Stdlib Require Import QArith.
#[local] Close Scope Q_scope.

Module Evaluation.

Local Open Scope string_scope.

(** [tf.keras.models.load_model(path)]: a model object, or the error of
    a missing or unreadable file. *)
Class LoadModel : Type := {
  saved_model : Type;
  load_model : node → string → result saved_model;
}.

(** [input_shape = (224, 224, 3)]; [input_shape[:2]] is [input_shape.1]. *)
Definition input_shape : nat * nat * nat := (224, 224, 3).

(** [batch_size = 128]. *)
Definition batch_size : nat := 128.

Section Script.
Context `{TfShuffle} `{ImageCodecs} `{Resize} `{Augment} `{LoadModel}.

(** The script, lines 11-17: the values of [test_ds] and [m]. *)
Definition evaluation (fs : node)
    : pystate tf_random_state (dataset (list (image Q * list Q)) * saved_model) :=
  dataset_test ← Dataset___init__ fs "data/Test" "png" AUTOTUNE 1 false input_shape.1;
  let test_ds := get_ds dataset_test in
  test_ds ← ps_lift (ds_batch batch_size (ds_cache None test_ds));
  let test_ds := ds_prefetch AUTOTUNE test_ds in
  m ← ps_lift (load_model fs "./saved_models/TSL_MobileNetV2.h5");
  mret (test_ds, m).

End Script.

(** ** Theorems *)

Section Lemmas.
Context `{TfShuffle} `{ImageCodecs} `{Resize} `{Augment} `{LoadModel}.

(** What a successful run of the script built: the test pipeline is the
    processed pipeline of the test [Dataset], batched by 128. *)
Lemma evaluation_Ok fs st st' test_ds m :
  evaluation fs st = (st', Ok (test_ds, m)) →
  ∃ st1 d, Dataset___init__ fs "data/Test" "png" AUTOTUNE 1 false input_shape.1 st = (st1, Ok d) ∧
    ∀ fs', test_ds fs' = batch_results batch_size (get_ds d fs').
Proof.
  unfold evaluation. intros He. inv_pystate.
  eexists _, _. split; [exact Ha|]. intros fs'. reflexivity.
Qed.

End Lemmas.

Section Theorems.
Context `{TfShuffle} `{ImageCodecsLaws} `{ResizeLaws} `{Augment} `{LoadModel}.

(** C2: whatever files the test pipeline meets when it is iterated, every
    batch a [for] loop over it receives holds between 1 and [batch_size]
    (128) elements, and every image in it has all its pixel values in
    [[0, 1]]. *)
Theorem evaluation_batches fs st st' test_ds m fs' :
  evaluation fs st = (st', Ok (test_ds, m)) →
  Forall (λ b, 0 < length b ≤ batch_size ∧ Forall (λ x, img_forall unit_range x.1) b)
    (iterate (test_ds fs')).1.
Proof.
  intros (st1 & d & Hd & Ht)%evaluation_Ok. apply Forall_forall. intros b Hb.
  apply iterate_elem in Hb. rewrite Ht in Hb.
  apply (batch_go_elem (λ x, img_forall unit_range x.1) batch_size [] (get_ds d fs'));
    [done|simpl; unfold batch_size; lia|constructor| |done].
  intros [img v] Hx. by apply (Dataset_eval_range fs "data/Test" "png" AUTOTUNE 1 input_shape.1 st st1 d fs' img v).
Qed.

End Theorems.

Section Liveness.
Context `{TfShuffleLaws} `{ImageCodecs} `{Resize} `{Augment} `{LoadModel}.

(** C9: when every listed file can be read and decoded, a [for] loop over
    the test pipeline ends without an exception and receives every file's
    image: the batches hold [N] elements in all. *)
Theorem evaluation_delivers_all fs st st' test_ds m fs' :
  evaluation fs st = (st', Ok (test_ds, m)) →
  (∀ p labels, p ∈ glob fs (dataset_pattern "data/Test" "png") →
     is_ok (decode_image fs' p labels) = true) →
  (iterate (test_ds fs')).2 = None ∧
  length (concat (iterate (test_ds fs')).1) = length (glob fs (dataset_pattern "data/Test" "png")).
Proof.
  intros (st1 & d & Hd & Ht)%evaluation_Ok Hok. rewrite Ht.
  destruct (get_ds_files _ _ _ _ _ _ _ _ _ _ Hd) as (files & Hperm & Hds). rewrite Hds.
  edestruct (results_all_Ok ((λ p, decode_image fs' p (labels d) ≫= λ e,
      Ok (process_image e.1 e.2 input_shape.1 false)) <$> files)) as (xs & Hxs & Hlen);
    [|rewrite Hxs].
  { apply Forall_fmap, Forall_forall. intros p Hp. cbn.
    pose proof (Hok p (labels d) ltac:(by rewrite <-Hperm)) as Hp'.
    by destruct (decode_image fs' p (labels d)). }
  unfold batch_results. rewrite (batch_go_chunks _ [] xs), iterate_Ok by (done || unfold batch_size; simpl; lia).
  cbn [fst snd app]. rewrite chunks_concat by done. split; [done|].
  by rewrite Hlen, length_fmap, Hperm.
Qed.

(** C10: a [for] loop over the test pipeline ends after at most
    [⌈N / 128⌉] batches, [N] the number of files the glob lists, whatever
    the files hold when they are read. *)
Theorem evaluation_batch_count fs st st' test_ds m fs' :
  evaluation fs st = (st', Ok (test_ds, m)) →
  (length (iterate (test_ds fs')).1 ≤
    (length (glob fs (dataset_pattern "data/Test" "png")) + batch_size - 1) / batch_size)%nat.
Proof.
  intros (st1 & d & Hd & Ht)%evaluation_Ok. rewrite Ht.
  destruct (get_ds_files _ _ _ _ _ _ _ _ _ _ Hd) as (files & Hperm & Hds).
  rewrite <-(Permutation_length Hperm).
  pose proof (iterate_batch_length batch_size (get_ds d fs')) as Hb.
  rewrite Hds, length_fmap in Hb. rewrite Hds. apply Hb. unfold batch_size. lia.
Qed.

End Liveness.

(** ** A run on an example tree

    The tree of [FileSystem.example_fs] with the saved model added; the
    model loader reads the file's bytes. *)

Definition load_model_reference : LoadModel := {| saved_model := list byte; load_model := read_file |}.

Definition example_eval_fs : node :=
  Dir [("data", Dir [("Test", Dir example_root_entries)]);
       ("saved_models", Dir [("TSL_MobileNetV2.h5", File [x01])])].

Definition example_evaluation : tf_random_state * result (dataset (list (image Q * list Q)) * list byte) :=
  @evaluation shuffle_reference codecs_reference resize_reference augment_identity
    load_model_reference example_eval_fs tf_initial_state.

Definition example_test_ds : dataset (list (image Q * list Q)) :=
  match example_evaluation.2 with Ok (t, _) => t | Err _ => λ _, [] end.

Lemma evaluation_batches_witness :
  example_evaluation = (example_evaluation.1, Ok (example_test_ds, [x01])) ∧
  Forall (λ b, 0 < length b ≤ batch_size ∧ Forall (λ x, img_forall unit_range x.1) b)
    (iterate (example_test_ds example_eval_fs)).1.
Proof.
  split; [reflexivity|].
  apply (@evaluation_batches shuffle_reference codecs_reference _ resize_reference _
           augment_identity load_model_reference example_eval_fs tf_initial_state
           example_evaluation.1 example_test_ds [x01] example_eval_fs).
  reflexivity.
Defined.

Lemma evaluation_batch_count_witness :
  example_evaluation = (example_evaluation.1, Ok (example_test_ds, [x01])) ∧
  (length (iterate (example_test_ds example_eval_fs)).1 ≤
    (length (glob example_eval_fs (dataset_pattern "data/Test" "png")) + batch_size - 1) / batch_size)%nat.
Proof.
  split; [reflexivity|].
  apply (@evaluation_batch_count shuffle_reference _ codecs_reference resize_reference
           augment_identity load_model_reference example_eval_fs tf_initial_state
           example_evaluation.1 example_test_ds [x01] example_eval_fs).
  reflexivity.
Defined.

(** The same tree without the directory [cat/x.png], which cannot be read
    as a file: every listed file decodes. *)
Definition example_clean_fs : node :=
  Dir [("data", Dir [("Test", Dir
         [("dog", Dir [("b.png", File [x01; x02]); ("c.jpg", File [x03])]);
          ("cat", Dir [("a.png", File [x01]); ("sub", Dir [("d.png", File [x04])])]);
          ("README", File [x05])])]);
       ("saved_models", Dir [("TSL_MobileNetV2.h5", File [x01])])].

Definition example_clean_evaluation
    : tf_random_state * result (dataset (list (image Q * list Q)) * list byte) :=
  @evaluation shuffle_reference codecs_reference resize_reference augment_identity
    load_model_reference example_clean_fs tf_initial_state.

Definition example_clean_test_ds : dataset (list (image Q * list Q)) :=
  match example_clean_evaluation.2 with Ok (t, _) => t | Err _ => λ _, [] end.

Lemma evaluation_delivers_all_witness :
  example_clean_evaluation = (example_clean_evaluation.1, Ok (example_clean_test_ds, [x01])) ∧
  (iterate (example_clean_test_ds example_clean_fs)).2 = None ∧
  length (concat (iterate (example_clean_test_ds example_clean_fs)).1) =
    length (glob example_clean_fs (dataset_pattern "data/Test" "png")).
Proof.
  split; [reflexivity|].
  apply (@evaluation_delivers_all shuffle_reference _ codecs_reference resize_reference
           augment_identity load_model_reference example_clean_fs tf_initial_state
           example_clean_evaluation.1 example_clean_test_ds [x01] example_clean_fs);
    [reflexivity|].
  intros p labels Hp.
  change (glob example_clean_fs (dataset_pattern "data/Test" "png"))
    with ["data/Test/dog/b.png"; "data/Test/cat/a.png"] in Hp.
  repeat (apply elem_of_cons in Hp as [->|Hp]; [reflexivity|]). by apply elem_of_nil in Hp.
Defined.

End Evaluation.
