(* ===== verification/Demo.v ===== *)
(** * The [__main__] blocks of [src/models/backbone.py] and
    [src/utils/dataset.py]

    [backbone.py] (lines 59-62) builds an [effnetb0] backbone with
    ImageNet weights and [trainable=False] and reads its model.
    [dataset.py] (lines 90-99) builds a training and a test [Dataset]
    on [../data/Train] and [../data/Test] (default seed 1, so the global
    seed is set twice) and prints [np.min] and [np.max] of the first ten
    images of the training pipeline.  The program's output is the list of
    printed values and the exception that ends it, if any ([main_loop]).
    The tree is the one seen from the working directory: the directory
    entry [..] of POSIX is the entry named [..] that leads to the parent
    directory. *)

From S2P Require Import Prelude FileSystem Backbone Image DecodeImage ProcessImage TfData Dataset.
Import FileSystem Backbone Image DecodeImage ProcessImage TfData Dataset.
From Stdlib Require Import QArith Qminmax.
#[local] Close Scope Q_scope.

Module Demo.

Local Open Scope string_scope.

(** ** [backbone.py], lines 59-62 *)

Section BackboneMain.
Context `{KerasApps}.

(** [b = Backbone('effnetb0', input_shape=(224, 224, 3), weights='imagenet',
    trainable=False)]; [m = b.backbone]; run without [-O]. *)
Definition backbone_main : result (option keras_model) :=
  b ← Backbone___init__ true "effnetb0" [224; 224; 3]%Z (Some "imagenet") false;
  Ok (backbone b).

End BackboneMain.

(** ** [dataset.py], lines 90-99 *)

(** The values of an array, in order. *)
Definition img_values (img : image Q) : list Q := concat (concat img).

(** [np.min] and [np.max]: a [ValueError] on an empty array. *)
Definition np_min (img : image Q) : result Q :=
  match img_values img with
  | [] => Err (ValueError "zero-size array to reduction operation minimum which has no identity")
  | q :: qs => Ok (foldl Qmin q qs)
  end.

Definition np_max (img : image Q) : result Q :=
  match img_values img with
  | [] => Err (ValueError "zero-size array to reduction operation maximum which has no identity")
  | q :: qs => Ok (foldl Qmax q qs)
  end.

(** [ds.take(count)]: the first [count] elements. *)
Definition ds_take {A} (count : nat) (d : dataset A) : dataset A := λ fs, take count (d fs).

(** [ds.as_numpy_iterator()]: the same elements as numpy arrays. *)
Definition as_numpy_iterator {A} (d : dataset A) : dataset A := d.

(** The loop [for im, l in ...: print(np.min(im)); print(np.max(im))]:
    the printed values, and the exception that stops the loop. *)
Fixpoint main_loop (rs : list (result (image Q * list Q))) : list Q * option PyExc :=
  match rs with
  | [] => ([], None)
  | Err e :: _ => ([], Some e)
  | Ok (im, l) :: rs' =>
      match np_min im with
      | Err e => ([], Some e)
      | Ok lo =>
          match np_max im with
          | Err e => ([lo], Some e)
          | Ok hi => let '(out, e) := main_loop rs' in (lo :: hi :: out, e)
          end
      end
  end.

Section DatasetMain.
Context `{TfShuffle} `{ImageCodecs} `{Resize} `{Augment}.

(** The block of lines 90-99. *)
Definition dataset_main (fs : node) : pystate tf_random_state (list Q * option PyExc) :=
  dataset_train ← Dataset___init__ fs "../data/Train" "png" AUTOTUNE 1 true (224, 224);
  let train_ds := get_ds dataset_train in
  dataset_test ← Dataset___init__ fs "../data/Test" "png" AUTOTUNE 1 false (224, 224);
  let test_ds := get_ds dataset_test in
  mret (main_loop (as_numpy_iterator (ds_take 10 train_ds) fs)).

End DatasetMain.

(** ** Lemmas *)

Lemma foldl_select (f : Q → Q → Q) (Hf : ∀ a b, f a b = a ∨ f a b = b) q qs :
  foldl f q qs ∈ q :: qs.
Proof.
  revert q. induction qs as [|q' qs IH]; intros q; cbn [foldl]; [by left|].
  destruct (Hf q q') as [-> | ->].
  - specialize (IH q). apply elem_of_cons in IH as [->|Hq]; [by left|by do 2 right].
  - by right.
Qed.

Lemma Qmin_select a b : Qmin a b = a ∨ Qmin a b = b.
Proof. unfold Qmin, GenericMinMax.gmin. destruct (a ?= b)%Q; auto. Qed.

Lemma Qmax_select a b : Qmax a b = a ∨ Qmax a b = b.
Proof. unfold Qmax, GenericMinMax.gmax. destruct (a ?= b)%Q; auto. Qed.

Lemma np_min_elem img q : np_min img = Ok q → q ∈ img_values img.
Proof.
  unfold np_min. destruct (img_values img) as [|q0 qs]; [done|].
  intros [= <-]. apply foldl_select, Qmin_select.
Qed.

Lemma np_max_elem img q : np_max img = Ok q → q ∈ img_values img.
Proof.
  unfold np_max. destruct (img_values img) as [|q0 qs]; [done|].
  intros [= <-]. apply foldl_select, Qmax_select.
Qed.

Lemma img_forall_values (P : Q → Prop) img : img_forall P img → Forall P (img_values img).
Proof. intros Hi. apply Forall_concat, Forall_concat. exact Hi. Qed.

(** The loop prints two values per element at most. *)
Lemma main_loop_length rs : (length (main_loop rs).1 ≤ 2 * length rs)%nat.
Proof.
  induction rs as [|[[im l]|e] rs IH]; cbn [main_loop]; [simpl; lia| |simpl; lia].
  destruct (np_min im); [|simpl; lia]. destruct (np_max im); [|simpl; lia].
  destruct (main_loop rs) as [out e]. cbn [fst length] in *. lia.
Qed.

(** Every printed value is a value of an image of the sequence. *)
Lemma main_loop_elem rs q :
  q ∈ (main_loop rs).1 → ∃ im l, Ok (im, l) ∈ rs ∧ q ∈ img_values im.
Proof.
  induction rs as [|[[im l]|e] rs IH]; cbn [main_loop]; [by intros ?%elem_of_nil| |by intros ?%elem_of_nil].
  destruct (np_min im) as [lo|] eqn:Emin; [|by intros ?%elem_of_nil].
  destruct (np_max im) as [hi|] eqn:Emax.
  - destruct (main_loop rs) as [out e] eqn:E. cbn [fst].
    intros [->|[->|Hq]%elem_of_cons]%elem_of_cons.
    + exists im, l. split; [left|by apply np_min_elem].
    + exists im, l. split; [left|by apply np_max_elem].
    + destruct IH as (im' & l' & Hin & Hv); [done|]. exists im', l'. split; [by right|done].
  - intros [->|?%elem_of_nil]%elem_of_cons; [|done].
    exists im, l. split; [left|by apply np_min_elem].
Qed.

Section DatasetMainLemmas.
Context `{TfShuffle} `{ImageCodecs} `{Resize} `{Augment}.

Lemma dataset_main_Ok fs st st' r :
  dataset_main fs st = (st', Ok r) →
  ∃ st1 d, Dataset___init__ fs "../data/Train" "png" AUTOTUNE 1 true (224, 224) st = (st1, Ok d) ∧
    r = main_loop (take 10 (get_ds d fs)).
Proof. unfold dataset_main. intros Hm. inv_pystate. by eexists _, _. Qed.

End DatasetMainLemmas.

(** ** Theorems *)

Section DatasetMainTheorems.
Context `{TfShuffle} `{ImageCodecs} `{Resize} `{Augment}.

(** C28: whatever the tree, the demo of [dataset.py] prints at most 20
    values: its loop over [take(10)] ends after ten elements at most. *)
Theorem dataset_main_output_length fs st st' out e :
  dataset_main fs st = (st', Ok (out, e)) → (length out ≤ 20)%nat.
Proof.
  intros (st1 & d & _ & Hr)%dataset_main_Ok.
  pose proof (main_loop_length (take 10 (get_ds d fs))) as Hl.
  rewrite <-Hr in Hl. cbn [fst] in Hl. rewrite length_take in Hl. lia.
Qed.

End DatasetMainTheorems.

Section DatasetMainBounds.
Context `{TfShuffle} `{ImageCodecsLaws} `{ResizeLaws} `{Augment}.

(** C27: when the augmentation keeps pixel values in [[0, 255]], every
    value the demo of [dataset.py] prints lies in [[0, 1]]. *)
Theorem dataset_main_output_range fs st st' out e :
  (∀ img, img_forall byte_range img → img_forall byte_range (train_transforms img)) →
  dataset_main fs st = (st', Ok (out, e)) → Forall unit_range out.
Proof.
  intros Haug (st1 & d & Hd & Hr)%dataset_main_Ok. apply Forall_forall. intros q Hq.
  assert (Hq' : q ∈ (main_loop (take 10 (get_ds d fs))).1) by (rewrite <-Hr; exact Hq).
  apply main_loop_elem in Hq' as (im & l & Hin & Hv).
  apply elem_of_take in Hin as (i & Hi & _). apply list_elem_of_lookup_2 in Hi.
  destruct (get_ds_elem _ _ _ _ _ _ _ _ _ _ _ _ _ Hd Hi) as (p & img0 & Hdec & ->).
  destruct (decode_image_uint8 _ _ _ _ _ Hdec) as [Hu _].
  eapply Forall_forall; [apply img_forall_values|exact Hv].
  apply normalise_unit_range, Haug. by apply resize_byte_range.
Qed.

End DatasetMainBounds.

Section BackboneMainTheorems.
Context `{KerasAppsLaws}.

(** C29: the demo of [backbone.py] either raises the error of the Keras
    constructor of [EfficientNetB0] or holds a headless [EfficientNetB0]
    model with ImageNet weights, the input shape [(224, 224, 3)] and
    [trainable] false; it never holds [None]. *)
Theorem backbone_main_model :
  match backbone_main with
  | Ok (Some k) => km_arch k = EfficientNetB0 ∧ km_include_top k = false ∧
      km_weights k = Some "imagenet" ∧ km_input_shape k = [224; 224; 3]%Z ∧ km_trainable k = false
  | Ok None => False
  | Err e => keras_app EfficientNetB0 false (Some "imagenet") [224; 224; 3]%Z = Err e
  end.
Proof.
  unfold backbone_main.
  rewrite Backbone_init_asserts_pass; [|apply backbone_names_cases; auto|done|by right].
  rewrite import_backbone_arch, py_lower_backbone_name by (apply backbone_names_cases; auto).
  change (arch_of_name "effnetb0") with (Some EfficientNetB0). cbn.
  destruct (keras_app EfficientNetB0 false (Some "imagenet") [224; 224; 3]%Z) as [k|e] eqn:E;
    cbn; [|done].
  destruct (keras_app_spec _ _ _ _ _ E) as (Ha & Ht & Hw & Hs). by split_and!.
Qed.

End BackboneMainTheorems.

(** ** Runs with the reference instances *)

Lemma backbone_main_model_witness :
  match @backbone_main keras_reference with
  | Ok (Some k) => km_arch k = EfficientNetB0 ∧ km_include_top k = false ∧
      km_weights k = Some "imagenet" ∧ km_input_shape k = [224; 224; 3]%Z ∧ km_trainable k = false
  | Ok None => False
  | Err e => @keras_app keras_reference EfficientNetB0 false (Some "imagenet") [224; 224; 3]%Z = Err e
  end.
Proof. apply (@backbone_main_model keras_reference _). Defined.

(** The tree seen from [src/utils]: its entry [..] leads to [src], which
    holds [data/Train] and [data/Test]. *)
Definition example_demo_fs : node :=
  Dir [("..", Dir [("data", Dir [("Train", Dir example_root_entries);
                                 ("Test", Dir example_root_entries)])])].

Definition example_demo_run : tf_random_state * result (list Q * option PyExc) :=
  @dataset_main shuffle_reference codecs_reference resize_reference augment_identity
    example_demo_fs tf_initial_state.

Definition example_demo_output : list Q * option PyExc :=
  match example_demo_run.2 with Ok r => r | Err _ => ([], None) end.

Lemma dataset_main_output_length_witness :
  example_demo_run = (example_demo_run.1, Ok example_demo_output) ∧
  (length example_demo_output.1 ≤ 20)%nat.
Proof.
  split; [reflexivity|].
  apply (@dataset_main_output_length shuffle_reference codecs_reference resize_reference
           augment_identity example_demo_fs tf_initial_state example_demo_run.1 _
           example_demo_output.2).
  reflexivity.
Defined.

Lemma dataset_main_output_range_witness :
  example_demo_run = (example_demo_run.1, Ok example_demo_output) ∧
  Forall unit_range example_demo_output.1.
Proof.
  split; [reflexivity|].
  apply (@dataset_main_output_range shuffle_reference codecs_reference _ resize_reference _
           augment_identity example_demo_fs tf_initial_state example_demo_run.1 _
           example_demo_output.2).
  - intros img Hb. exact Hb.
  - reflexivity.
Defined.

End Demo.
